(** * The SSR screenshot test runner (src/universal-app/ssr-screenshot-test-runner.ts)

    A shallow embedding of the script that pre-renders the kitchen-sink
    application, screenshots it in a headless browser and compares the
    screenshot with a golden file, together with the properties that the
    design document states about it.

    The script talks to the outside world all the time: the Bazel runfiles
    helper, the pre-renderer, Puppeteer, the PNG codec, the pixel-diff
    package, the file system, the console and the process.  Each of these is a
    field of the record [Collab] (what the call answers) and an [Event] in the
    trace of the [World] (that the call was made); calls that can throw answer
    with a [result].  The code itself is written in a state and exception
    monad [M] over the world, with stdpp's bind notation. *)

From Stdlib Require Import ZArith List String Ascii Strings.Byte Lia.
From stdpp Require Import base option list strings gmap pretty.

Local Open Scope string_scope.
Local Open Scope list_scope.

(** ** Values *)

Abbreviation bytes := (list Byte.byte).

(** What a call that may throw answers: a value, or a JavaScript exception
    (kept as its message). *)
Inductive result (A : Type) : Type :=
| Ok (a : A)
| Throws (e : string).
Arguments Ok {A} a.
Arguments Throws {A} e.

(** The part of fast-png's decoded image that the script reads. *)
Record PNG : Type := MkPNG {
  png_width : Z;
  png_height : Z;
  png_data : bytes
}.

(** Puppeteer's viewport. *)
Record Viewport : Type := MkViewport {
  vp_width : Z;
  vp_height : Z
}.

(** [interface WebTestMetadata]: [webTestFiles: {namedFiles: {CHROMIUM?: string}}[]].
    The optional chaining at its use shows that [webTestFiles] itself may be
    missing at run time. *)
Record NamedFiles : Type := MkNamedFiles { CHROMIUM : option string }.
Record WebTestFile : Type := MkWebTestFile { namedFiles : NamedFiles }.
Record WebTestMetadata : Type := MkWebTestMetadata {
  webTestFiles : option (list WebTestFile)
}.

(** ** Collaborators

    Everything the script imports.  None of it is code of the script; every
    theorem below quantifies over an arbitrary [Collab]. *)
Record Collab : Type := MkCollab {
  (* @bazel/runfiles *)
  runfiles_resolve : option string -> result string;
  runfiles_resolveWorkspaceRelative : option string -> result string;
  (* require() of the metadata file *)
  require_metadata : string -> result WebTestMetadata;
  (* path.join on two strings *)
  path_join : string -> string -> string;
  (* import('./prerender'), its exported outputPath *)
  prerender_outputPath : result string;
  (* puppeteer-core *)
  puppeteer_launch : string -> bool -> result unit;
  default_viewport : Viewport;
  browser_newPage : result unit;
  page_goto : string -> result unit;
  body_scrollHeight : Viewport -> result Z;
  page_setViewport : Viewport -> result unit;
  page_screenshot : Viewport -> result bytes;
  browser_close : result unit;
  (* fast-png *)
  fastpng_decode : bytes -> result PNG;
  fastpng_encode : PNG -> result bytes;
  (* pixelmatch(img1, img2, output, width, height): the count and the
     output buffer as the call leaves it *)
  pixelmatch : bytes -> bytes -> bytes -> Z -> Z -> result (Z * bytes);
  (* whether writeFileSync to a path goes through *)
  fs_writable : string -> bool
}.

(** ** The world: files, the page's viewport, and what happened so far *)

(** One argument of a console call.  The diff percentage is a floating point
    quotient in the source; it is kept as the pair it is computed from. *)
Inductive LogArg : Type :=
| LStr (s : string)
| LRatio (num den : Z)
| LError (e : string).

Inductive Event : Type :=
| EvRender
| EvLaunch (executablePath : string) (headless : bool)
| EvNewPage
| EvGoto (url : string)
| EvEvaluate (at_viewport : Viewport)
| EvSetViewport (vp : Viewport)
| EvScreenshot (at_viewport : Viewport)
| EvClose
| EvReadFile (path : string)
| EvWriteFile (path : string) (data : bytes)
| EvDecode (data : bytes)
| EvEncode (image : PNG)
| EvPixelmatch (img1 img2 output : bytes) (width height : Z)
| EvConsoleInfo (args : list LogArg)
| EvConsoleError (args : list LogArg)
| EvUncaught (e : string)
| EvExit (code : Z).

Record World : Type := MkWorld {
  fs : gmap string bytes;
  page_viewport : Viewport;
  trace : list Event
}.

Definition log (e : Event) (w : World) : World :=
  MkWorld (fs w) (page_viewport w) (trace w ++ [e]).

(** ** The monad *)

(** How a computation ends: with a value, with a thrown exception, or
    because [process.exit] stopped the process. *)
Inductive Outcome (A : Type) : Type :=
| Ret (a : A)
| Raise (e : string)
| Exited (code : Z).
Arguments Ret {A} a.
Arguments Raise {A} e.
Arguments Exited {A} code.

Definition M (A : Type) : Type := World -> Outcome A * World.

#[global] Instance M_ret : MRet M := fun A a w => (Ret a, w).

#[global] Instance M_bind : MBind M := fun A B f m w =>
  match m w with
  | (Ret a, w') => f a w'
  | (Raise e, w') => (Raise e, w')
  | (Exited code, w') => (Exited code, w')
  end.

(** [p.catch(handler)] *)
Definition catch {A : Type} (m : M A) (handler : string -> M A) : M A := fun w =>
  match m w with
  | (Raise e, w') => handler e w'
  | r => r
  end.

(** A pure call that may throw. *)
Definition lift {A : Type} (r : result A) : M A := fun w =>
  match r with
  | Ok a => (Ret a, w)
  | Throws e => (Raise e, w)
  end.

(** A call to a collaborator: it is recorded, then it answers or throws. *)
Definition call {A : Type} (e : Event) (r : result A) : M A := fun w =>
  lift r (log e w).

Definition console_info (args : list LogArg) : M unit :=
  call (EvConsoleInfo args) (Ok tt).

Definition console_error (args : list LogArg) : M unit :=
  call (EvConsoleError args) (Ok tt).

Definition process_exit {A : Type} (code : Z) : M A := fun w =>
  (Exited code, log (EvExit code) w).

(** [readFileSync(path)]: throws when there is no such file. *)
Definition readFileSync (path : string) : M bytes := fun w =>
  call (EvReadFile path)
       (match fs w !! path with
        | Some b => Ok b
        | None => Throws ("ENOENT: no such file or directory, open " +:+ path)
        end) w.

(** [writeFileSync(path, data)]: replaces the whole file, or throws. *)
Definition writeFileSync (c : Collab) (path : string) (data : bytes) : M unit := fun w =>
  if fs_writable c path
  then (Ret tt, MkWorld (<[path := data]> (fs w)) (page_viewport w)
                        (trace w ++ [EvWriteFile path data]))
  else (Raise ("EACCES: permission denied, open " +:+ path),
        log (EvWriteFile path data) w).

(** [page.evaluate(() => document.body.scrollHeight)]: the body is laid out
    for the viewport the page has at this moment. *)
Definition page_evaluate_scrollHeight (c : Collab) : M Z := fun w =>
  call (EvEvaluate (page_viewport w)) (body_scrollHeight c (page_viewport w)) w.

(** [page.setViewport(vp)] *)
Definition setViewport (c : Collab) (vp : Viewport) : M unit := fun w =>
  match page_setViewport c vp with
  | Ok _ => (Ret tt, MkWorld (fs w) vp (trace w ++ [EvSetViewport vp]))
  | Throws e => (Raise e, log (EvSetViewport vp) w)
  end.

(** [page.screenshot({encoding: 'binary'})] *)
Definition screenshot (c : Collab) : M bytes := fun w =>
  call (EvScreenshot (page_viewport w)) (page_screenshot c (page_viewport w)) w.

(** ** The script *)

(** The constants the module computes when it is loaded and that [main]
    reads ([webTestMetadata] is only used to compute the first). *)
Record Globals : Type := MkGlobals {
  chromiumExecutableRootPath : option string;
  testOutputDirectory : option string;
  screenshotDiffPath : string
}.

(** Width of the browser for the screenshot. *)
Definition screenshotBrowserWidth : Z := 1920.

(** [webTestMetadata.webTestFiles?.[0].namedFiles.CHROMIUM]: a missing
    [webTestFiles] short-circuits the chain to undefined, a present but empty
    one makes [.namedFiles] read a property of undefined. *)
Definition chromium_of (md : WebTestMetadata) : result (option string) :=
  match webTestFiles md with
  | None => Ok None
  | Some [] => Throws "TypeError: Cannot read properties of undefined (reading 'namedFiles')"
  | Some (f :: _) => Ok (CHROMIUM (namedFiles f))
  end.

(** [join(testOutputDirectory, 'image-diff.png')].  The non-null assertion on
    the environment variable is erased by the compiler; Node's [path.join]
    rejects an argument that is not a string with a TypeError. *)
Definition join (c : Collab) (dir : option string) (name : string) : result string :=
  match dir with
  | Some d => Ok (path_join c d name)
  | None => Throws "TypeError [ERR_INVALID_ARG_TYPE]: The path argument must be of type string. Received undefined"
  end.

(** [args[1] === 'true'] where [args = process.argv.slice(2)]. *)
Definition approveGolden (argv : list string) : bool :=
  bool_decide (drop 2 argv !! 1%nat = Some "true").

(** A word between double quotes, as it stands in a message. *)
Definition quoted (s : string) : string :=
  String "034"%char (s +:+ String "034"%char EmptyString).

(** How a template literal prints a value that may be undefined. *)
Definition template (v : option string) : string := default "undefined" v.

(** [s.replace(/\\/g, '/')] *)
Fixpoint replace_backslashes (s : string) : string :=
  match s with
  | EmptyString => EmptyString
  | String a s' =>
      String (if Ascii.eqb a "092"%char then "/"%char else a) (replace_backslashes s')
  end.

(** Renders the kitchen-sink app on the server; returns the path to the
    pre-rendered index HTML file. *)
Definition renderKitchenSinkOnServer (c : Collab) : M string :=
  call EvRender (prerender_outputPath c).

(** Updates the browser viewport to match the body content. *)
Definition updateBrowserViewportToMatchContent (c : Collab) : M unit :=
  bodyScrollHeight ← page_evaluate_scrollHeight c;
  setViewport c (MkViewport screenshotBrowserWidth bodyScrollHeight).

(** Entry point for the screenshot test runner. *)
Definition main (c : Collab) (g : Globals) (environ : gmap string string)
    (goldenPath : string) (approveGolden : bool) : M unit :=
  outputPath ← renderKitchenSinkOnServer c;
  executablePath ← lift (runfiles_resolve c (chromiumExecutableRootPath g));
  _ ← call (EvLaunch executablePath true) (puppeteer_launch c executablePath true);
  _ ← call EvNewPage (browser_newPage c);
  _ ← call (EvGoto ("file://" +:+ outputPath)) (page_goto c ("file://" +:+ outputPath));
  _ ← updateBrowserViewportToMatchContent c;
  currentScreenshotBuffer ← screenshot c;
  _ ← call EvClose (browser_close c);
  if approveGolden then
    _ ← writeFileSync c goldenPath currentScreenshotBuffer;
    console_info [LStr "Golden screenshot updated."]
  else
    currentScreenshot ←
      call (EvDecode currentScreenshotBuffer) (fastpng_decode c currentScreenshotBuffer);
    goldenBuffer ← readFileSync goldenPath;
    goldenScreenshot ← call (EvDecode goldenBuffer) (fastpng_decode c goldenBuffer);
    let diffImageData := replicate (length (png_data currentScreenshot)) Byte.x00 in
    '(numDiffPixels, diffImageData) ←
      call (EvPixelmatch (png_data goldenScreenshot) (png_data currentScreenshot)
              diffImageData (png_width currentScreenshot) (png_height currentScreenshot))
           (pixelmatch c (png_data goldenScreenshot) (png_data currentScreenshot)
              diffImageData (png_width currentScreenshot) (png_height currentScreenshot));
    _ ← console_error
          [LStr "diff perc";
           LRatio numDiffPixels (png_width currentScreenshot * png_height currentScreenshot)];
    if bool_decide (numDiffPixels ≠ 0%Z) then
      let diffImage :=
        MkPNG (png_width currentScreenshot) (png_height currentScreenshot) diffImageData in
      encoded ← call (EvEncode diffImage) (fastpng_encode c diffImage);
      _ ← writeFileSync c (screenshotDiffPath g) encoded;
      _ ← console_error
            [LStr ("Expected golden image to match. " +:+ pretty numDiffPixels
                   +:+ " pixels do not match.")];
      _ ← console_error
            [LStr ("Command to update the golden: yarn bazel run "
                   +:+ template (environ !! "TEST_TARGET") +:+ ".accept")];
      _ ← console_error
            [LStr ("See diff: file://" +:+ replace_backslashes (screenshotDiffPath g))];
      process_exit 1
    else
      console_info [LStr "Screenshot golden matches."].

(** The module body, run as the main module ([require.main === module]). *)
Definition script (c : Collab) (environ : gmap string string) (argv : list string) : M unit :=
  match environ !! "WEB_TEST_METADATA" with
  | None =>
      _ ← console_error
            [LStr ("Test running outside of a " +:+ quoted "web_test"
                   +:+ " target. No browser found.")];
      process_exit 1
  | Some metadataPath =>
      resolved ← lift (runfiles_resolve c (Some metadataPath));
      webTestMetadata ← lift (require_metadata c resolved);
      chromium ← lift (chromium_of webTestMetadata);
      let outputDirectory := environ !! "TEST_UNDECLARED_OUTPUTS_DIR" in
      diffPath ← lift (join c outputDirectory "image-diff.png");
      let g := MkGlobals chromium outputDirectory diffPath in
      let args := drop 2 argv in
      goldenPath ← lift (runfiles_resolveWorkspaceRelative c (args !! 0%nat));
      catch (main c g environ goldenPath (approveGolden argv))
            (fun e => _ ← console_error [LError e]; process_exit 1)
  end.

(** The state the process starts in: the files on disk, a page that, once
    opened, has the browser's default viewport, and nothing done yet. *)
Definition initial_world (c : Collab) (files : gmap string bytes) : World :=
  MkWorld files (default_viewport c) [].

(** The exit code of a computation: 0 when it runs to its end, the argument
    of [process.exit] when that is called, 1 for an uncaught exception. *)
Definition exit_code {A : Type} (r : Outcome A * World) : Z :=
  match fst r with
  | Ret _ => 0
  | Raise _ => 1
  | Exited code => code
  end.

(** The whole process: the exit code and the world it leaves. *)
Definition run (c : Collab) (environ : gmap string string) (argv : list string)
    (files : gmap string bytes) : Z * World :=
  match script c environ argv (initial_world c files) with
  | (Ret _, w) => (0%Z, w)
  | (Raise e, w) => (1%Z, log (EvUncaught e) w)
  | (Exited code, w) => (code, w)
  end.

(** ** The two halves of [main]

    Lines 68 to 78 of the source capture the screenshot and close the
    browser; lines 80 to 107 approve or compare.  [main] is their
    composition ([main_capture_judge] below), which lets a statement speak
    of a run that has captured a buffer. *)

Definition capture (c : Collab) (g : Globals) : M bytes :=
  outputPath ← renderKitchenSinkOnServer c;
  executablePath ← lift (runfiles_resolve c (chromiumExecutableRootPath g));
  _ ← call (EvLaunch executablePath true) (puppeteer_launch c executablePath true);
  _ ← call EvNewPage (browser_newPage c);
  _ ← call (EvGoto ("file://" +:+ outputPath)) (page_goto c ("file://" +:+ outputPath));
  _ ← updateBrowserViewportToMatchContent c;
  currentScreenshotBuffer ← screenshot c;
  _ ← call EvClose (browser_close c);
  mret currentScreenshotBuffer.

(** Lines 92 to 107: what follows the answer of the pixel-diff. *)
Definition report (c : Collab) (g : Globals) (environ : gmap string string)
    (currentScreenshot : PNG) (numDiffPixels : Z) (diffImageData : bytes) : M unit :=
  _ ← console_error
        [LStr "diff perc";
         LRatio numDiffPixels (png_width currentScreenshot * png_height currentScreenshot)];
  if bool_decide (numDiffPixels ≠ 0%Z) then
    let diffImage :=
      MkPNG (png_width currentScreenshot) (png_height currentScreenshot) diffImageData in
    encoded ← call (EvEncode diffImage) (fastpng_encode c diffImage);
    _ ← writeFileSync c (screenshotDiffPath g) encoded;
    _ ← console_error
          [LStr ("Expected golden image to match. " +:+ pretty numDiffPixels
                 +:+ " pixels do not match.")];
    _ ← console_error
          [LStr ("Command to update the golden: yarn bazel run "
                 +:+ template (environ !! "TEST_TARGET") +:+ ".accept")];
    _ ← console_error
          [LStr ("See diff: file://" +:+ replace_backslashes (screenshotDiffPath g))];
    process_exit 1
  else
    console_info [LStr "Screenshot golden matches."].

(** Lines 86 to 107: the comparison with the golden. *)
Definition verify (c : Collab) (g : Globals) (environ : gmap string string)
    (goldenPath : string) (currentScreenshotBuffer : bytes) : M unit :=
  currentScreenshot ←
    call (EvDecode currentScreenshotBuffer) (fastpng_decode c currentScreenshotBuffer);
  goldenBuffer ← readFileSync goldenPath;
  goldenScreenshot ← call (EvDecode goldenBuffer) (fastpng_decode c goldenBuffer);
  let diffImageData := replicate (length (png_data currentScreenshot)) Byte.x00 in
  '(numDiffPixels, diffImageData) ←
    call (EvPixelmatch (png_data goldenScreenshot) (png_data currentScreenshot)
            diffImageData (png_width currentScreenshot) (png_height currentScreenshot))
         (pixelmatch c (png_data goldenScreenshot) (png_data currentScreenshot)
            diffImageData (png_width currentScreenshot) (png_height currentScreenshot));
  report c g environ currentScreenshot numDiffPixels diffImageData.

(** Lines 80 to 84: the approval. *)
Definition approve (c : Collab) (goldenPath : string) (currentScreenshotBuffer : bytes)
    : M unit :=
  _ ← writeFileSync c goldenPath currentScreenshotBuffer;
  console_info [LStr "Golden screenshot updated."].

Definition judge (c : Collab) (g : Globals) (environ : gmap string string)
    (goldenPath : string) (approveGolden : bool) (currentScreenshotBuffer : bytes)
    : M unit :=
  if approveGolden then approve c goldenPath currentScreenshotBuffer
  else verify c g environ goldenPath currentScreenshotBuffer.

(** ** Reading traces *)

Definition is_close (e : Event) : bool :=
  match e with EvClose => true | _ => false end.

Definition is_pixelmatch (e : Event) : bool :=
  match e with EvPixelmatch _ _ _ _ _ => true | _ => false end.

Definition is_write (e : Event) : bool :=
  match e with EvWriteFile _ _ => true | _ => false end.

Definition is_write_to (path : string) (e : Event) : bool :=
  match e with EvWriteFile p _ => bool_decide (p = path) | _ => false end.

Definition is_read (e : Event) : bool :=
  match e with EvReadFile _ => true | _ => false end.

Definition is_decode (e : Event) : bool :=
  match e with EvDecode _ => true | _ => false end.

Definition is_encode (e : Event) : bool :=
  match e with EvEncode _ => true | _ => false end.

Definition is_browser (e : Event) : bool :=
  match e with
  | EvRender | EvLaunch _ _ | EvNewPage | EvGoto _ | EvEvaluate _
  | EvSetViewport _ | EvScreenshot _ | EvClose => true
  | _ => false
  end.

(** How many events of a kind a trace holds. *)
Definition count (p : Event -> bool) (t : list Event) : nat :=
  length (filter (fun e => p e = true) t).

(** The events of a capture that ran to its end. *)
Definition capture_events (outputPath executablePath : string) (before : Viewport)
    (height : Z) : list Event :=
  [EvRender; EvLaunch executablePath true; EvNewPage;
   EvGoto ("file://" +:+ outputPath);
   EvEvaluate before;
   EvSetViewport (MkViewport screenshotBrowserWidth height);
   EvScreenshot (MkViewport screenshotBrowserWidth height);
   EvClose].

(** The buffer handed to the pixel-diff for its output:
    [new Uint8Array({length: currentScreenshot.data.length})]. *)
Definition blank (cur : PNG) : bytes := replicate (length (png_data cur)) Byte.x00.

(** The events from the end of the capture to the pixel-diff call. *)
Definition comparison_events (goldenPath : string) (buf goldenBuffer : bytes)
    (cur gold : PNG) : list Event :=
  [EvDecode buf; EvReadFile goldenPath; EvDecode goldenBuffer;
   EvPixelmatch (png_data gold) (png_data cur) (blank cur) (png_width cur) (png_height cur)].

(** The three messages of a mismatch, in the order they are printed. *)
Definition mismatch_messages (g : Globals) (environ : gmap string string)
    (numDiffPixels : Z) : list Event :=
  [EvConsoleError
     [LStr ("Expected golden image to match. " +:+ pretty numDiffPixels
            +:+ " pixels do not match.")];
   EvConsoleError
     [LStr ("Command to update the golden: yarn bazel run "
            +:+ template (environ !! "TEST_TARGET") +:+ ".accept")];
   EvConsoleError
     [LStr ("See diff: file://" +:+ replace_backslashes (screenshotDiffPath g))]].

(** The line that logs the diff percentage. *)
Definition diff_perc_event (cur : PNG) (numDiffPixels : Z) : Event :=
  EvConsoleError [LStr "diff perc"; LRatio numDiffPixels (png_width cur * png_height cur)].

(** The world in which, after a capture that left [w1], the pixel-diff has
    just been called. *)
Definition compared_world (w1 : World) (goldenPath : string) (buf goldenBuffer : bytes)
    (cur gold : PNG) : World :=
  MkWorld (fs w1) (page_viewport w1)
    (trace w1 ++ comparison_events goldenPath buf goldenBuffer cur gold).

(** The image handed to the encoder: the diff buffer with the candidate's
    width and height. *)
Definition diff_image (cur : PNG) (diffImageData : bytes) : PNG :=
  MkPNG (png_width cur) (png_height cur) diffImageData.

(** The comparison reported a differing-pixel count other than 0: the trace
    holds a pixel-diff call that answered with such a count. *)
Definition reported_nonzero (c : Collab) (t : list Event) : Prop :=
  exists img1 img2 output width height numDiffPixels diffImageData,
    EvPixelmatch img1 img2 output width height ∈ t /\
    pixelmatch c img1 img2 output width height = Ok (numDiffPixels, diffImageData) /\
    numDiffPixels ≠ 0%Z.

(** Every call of the encoder in the trace answered. *)
Definition encodes_answered (c : Collab) (t : list Event) : Prop :=
  forall image, EvEncode image ∈ t -> exists encoded, fastpng_encode c image = Ok encoded.

(** The invariant of a pixel buffer: its data holds [channels] bytes for
    every pixel. *)
Definition valid_buffer (channels : Z) (p : PNG) : Prop :=
  Z.of_nat (length (png_data p)) = (png_width p * png_height p * channels)%Z.

(** The contract of the pixel-diff this development relies on for identical
    inputs: a buffer of the right size compared with itself, with an output
    buffer of the same size, has no differing pixel. *)
Definition diff_reflexive (channels : Z) (c : Collab) : Prop :=
  forall img output width height,
    Z.of_nat (length img) = (width * height * channels)%Z ->
    length output = length img ->
    exists diffImageData, pixelmatch c img img output width height = Ok (0%Z, diffImageData).

(** Events of the file system, the codec and the pixel-diff. *)
Definition is_io (e : Event) : bool :=
  is_read e || is_write e || is_decode e || is_encode e || is_pixelmatch e.

Definition is_exit (e : Event) : bool :=
  match e with EvExit _ => true | _ => false end.

Definition is_uncaught (e : Event) : bool :=
  match e with EvUncaught _ => true | _ => false end.

(** The handler passed to [.catch] at line 60. *)
Definition report_rejection (e : string) : M unit :=
  _ ← console_error [LError e]; process_exit 1.

(** The two messages a run can end well with. *)
Definition golden_updated : Event := EvConsoleInfo [LStr "Golden screenshot updated."].
Definition golden_matches : Event := EvConsoleInfo [LStr "Screenshot golden matches."].

(** Whether a string holds a backslash. *)
Fixpoint has_backslash (s : string) : bool :=
  match s with
  | EmptyString => false
  | String a s' => Ascii.eqb a "092"%char || has_backslash s'
  end.

(** ** In-memory collaborators

    Fake collaborators that never spawn a process, for running the script on
    concrete inputs. *)

#[global] Instance byte_eq_dec : EqDecision Byte.byte.
Proof.
  intros x y. destruct (Byte.eqb x y) eqn:E.
  - left. by apply Byte.byte_dec_bl.
  - right. intros ->. by rewrite Byte.byte_dec_lb in E.
Defined.

Module Fixture.

(** A toy lossless image format: one byte of width, one of height, then
    the RGBA data. *)
Definition toy_decode (b : bytes) : result PNG :=
  match b with
  | w :: h :: data => Ok (MkPNG (Z.of_N (Byte.to_N w)) (Z.of_N (Byte.to_N h)) data)
  | _ => Throws "Error: wrong PNG signature"
  end.

Definition toy_encode (p : PNG) : result bytes :=
  match Byte.of_N (Z.to_N (png_width p)), Byte.of_N (Z.to_N (png_height p)) with
  | Some w, Some h => Ok (w :: h :: png_data p)
  | _, _ => Throws "RangeError: image too large"
  end.

(** The pixels (groups of four bytes) in which two buffers differ, and a
    buffer that marks them in red. *)
Fixpoint diff_pixels (img1 img2 : bytes) : Z * bytes :=
  match img1, img2 with
  | r1 :: g1 :: b1 :: a1 :: img1', r2 :: g2 :: b2 :: a2 :: img2' =>
      let rest := diff_pixels img1' img2' in
      if bool_decide ((r1, g1, b1, a1) = (r2, g2, b2, a2))
      then (rest.1, Byte.x00 :: Byte.x00 :: Byte.x00 :: Byte.x00 :: rest.2)
      else ((rest.1 + 1)%Z, Byte.xff :: Byte.x00 :: Byte.x00 :: Byte.xff :: rest.2)
  | _, _ => (0%Z, [])
  end.

(** An in-memory pixel-diff with the interface the design document gives
    the collaborator (section 6: [diff(bufferA, bufferB, outDiffBuffer,
    width, height) -> differingPixelCount], requiring equal dimensions):
    it throws on buffers of different sizes and counts the differing
    pixels otherwise. *)
Definition reference_diff (img1 img2 output : bytes) (width height : Z)
    : result (Z * bytes) :=
  if negb (bool_decide (length img1 = length img2 /\ length output = length img1))
  then Throws "Error: Image sizes do not match."
  else if negb (bool_decide (Z.of_nat (length img1) = (width * height * 4)%Z))
  then Throws "Error: Image data size does not match width/height."
  else Ok (diff_pixels img1 img2).

(** A page whose content covers 1536000 square pixels: 1920 high in a
    viewport 800 wide, 800 high in one 1920 wide. *)
Definition scrollHeight (vp : Viewport) : result Z :=
  Ok (1536000 / vp_width vp)%Z.

Definition resolve (p : option string) : result string :=
  match p with
  | Some s => Ok s
  | None => Throws "Error: could not resolve undefined"
  end.

(** What may go wrong in a scenario. *)
Record Scenario : Type := MkScenario {
  shot : bytes;            (* what the screenshot call returns *)
  navigation_ok : bool;    (* whether page.goto succeeds *)
  capture_ok : bool;       (* whether page.screenshot succeeds *)
  writable : bool          (* whether files can be written *)
}.

Definition collab (s : Scenario) : Collab := {|
  runfiles_resolve := resolve;
  runfiles_resolveWorkspaceRelative := resolve;
  require_metadata := fun _ =>
    Ok (MkWebTestMetadata (Some [MkWebTestFile (MkNamedFiles (Some "/bin/chromium"))]));
  path_join := fun d n => d +:+ "/" +:+ n;
  prerender_outputPath := Ok "/out/index.html";
  puppeteer_launch := fun _ _ => Ok tt;
  default_viewport := MkViewport 800 600;
  browser_newPage := Ok tt;
  page_goto := fun _ =>
    if navigation_ok s then Ok tt else Throws "Error: net::ERR_FILE_NOT_FOUND";
  body_scrollHeight := scrollHeight;
  page_setViewport := fun _ => Ok tt;
  page_screenshot := fun _ =>
    if capture_ok s then Ok (shot s) else Throws "Error: Protocol error";
  browser_close := Ok tt;
  fastpng_decode := toy_decode;
  fastpng_encode := toy_encode;
  pixelmatch := reference_diff;
  fs_writable := fun _ => writable s
|}.

Definition red : bytes := [Byte.xff; Byte.x00; Byte.x00; Byte.xff].
Definition blue : bytes := [Byte.x00; Byte.x00; Byte.xff; Byte.xff].

(** A solid red image, as a file of the toy format. *)
Definition solid_red (w h : Byte.byte) : bytes :=
  w :: h :: concat (replicate (N.to_nat (Byte.to_N w) * N.to_nat (Byte.to_N h)) red).

Definition red10x10 : bytes := solid_red Byte.x0a Byte.x0a.
Definition red10x5 : bytes := solid_red Byte.x0a Byte.x05.

(** 10 by 10, red except the first pixel, which is blue. *)
Definition red10x10_one_blue : bytes :=
  Byte.x0a :: Byte.x0a :: blue ++ concat (replicate 99 red).

Definition goldenPath : string := "/goldens/kitchen-sink-prerendered.png".
Definition outputDirectory : string := "/outputs".

Definition globals : Globals :=
  MkGlobals (Some "/bin/chromium") (Some outputDirectory) "/outputs/image-diff.png".

Definition environ : gmap string string :=
  <["WEB_TEST_METADATA" := "/meta.json"]>
    (<["TEST_UNDECLARED_OUTPUTS_DIR" := outputDirectory]>
       (<["TEST_TARGET" := "//src/universal-app:server_test"]> ∅)).

(** The disk holds one file, the golden. *)
Definition files (golden : bytes) : gmap string bytes := {[ goldenPath := golden ]}.

(** Everything works and the screenshot is [shot]. *)
Definition fine (shot : bytes) : Scenario := MkScenario shot true true true.

(** The world a run starts in, and the one its capture leaves. *)
Definition start (s : Scenario) (golden : bytes) : World :=
  initial_world (collab s) (files golden).

Definition captured (s : Scenario) (golden : bytes) : World :=
  (capture (collab s) globals (start s golden)).2.

(** Width and height of a file of the toy format. *)
Definition dims (b : bytes) : option (Z * Z) :=
  match toy_decode b with
  | Ok p => Some (png_width p, png_height p)
  | Throws _ => None
  end.

(** The pixel buffer in a file of the toy format. *)
Definition image (b : bytes) : PNG :=
  match toy_decode b with
  | Ok p => p
  | Throws _ => MkPNG 0 0 []
  end.

(** The command line of a verify-mode and of an approve-mode run. *)
Definition argv_verify : list string := ["node"; "runner.js"; goldenPath].
Definition argv_approve : list string := ["node"; "runner.js"; goldenPath; "true"].

End Fixture.

(** Whether two events are calls of the same operation. *)
Definition same_kind (e1 e2 : Event) : bool :=
  match e1, e2 with
  | EvRender, EvRender | EvLaunch _ _, EvLaunch _ _ | EvNewPage, EvNewPage
  | EvGoto _, EvGoto _ | EvEvaluate _, EvEvaluate _ | EvSetViewport _, EvSetViewport _
  | EvScreenshot _, EvScreenshot _ | EvClose, EvClose | EvReadFile _, EvReadFile _
  | EvWriteFile _ _, EvWriteFile _ _ | EvDecode _, EvDecode _ | EvEncode _, EvEncode _
  | EvPixelmatch _ _ _ _ _, EvPixelmatch _ _ _ _ _ | EvConsoleInfo _, EvConsoleInfo _
  | EvConsoleError _, EvConsoleError _ | EvUncaught _, EvUncaught _
  | EvExit _, EvExit _ => true
  | _, _ => false
  end.

(** Collaborators that differ from [c] by the content of the metadata
    file. *)
Definition with_metadata (md : WebTestMetadata) (c : Collab) : Collab := {|
  runfiles_resolve := runfiles_resolve c;
  runfiles_resolveWorkspaceRelative := runfiles_resolveWorkspaceRelative c;
  require_metadata := fun _ => Ok md;
  path_join := path_join c;
  prerender_outputPath := prerender_outputPath c;
  puppeteer_launch := puppeteer_launch c;
  default_viewport := default_viewport c;
  browser_newPage := browser_newPage c;
  page_goto := page_goto c;
  body_scrollHeight := body_scrollHeight c;
  page_setViewport := page_setViewport c;
  page_screenshot := page_screenshot c;
  browser_close := browser_close c;
  fastpng_decode := fastpng_decode c;
  fastpng_encode := fastpng_encode c;
  pixelmatch := pixelmatch c;
  fs_writable := fs_writable c
|}.

(** ** Proof steps *)

Ltac unfold_ops :=
  unfold run, script, main, judge, capture, verify, report, approve, catch,
    renderKitchenSinkOnServer, updateBrowserViewportToMatchContent,
    page_evaluate_scrollHeight, setViewport, screenshot, readFileSync, writeFileSync,
    console_info, console_error, process_exit, call, lift, log, initial_world,
    exit_code, mbind, M_bind, mret, M_ret.

(** Case analysis on the next collaborator answer the goal waits for. *)
Ltac next_answer :=
  match goal with
  | |- context [match ?r with Ok _ => _ | Throws _ => _ end] =>
      let E := fresh "E" in destruct r eqn:E; simpl in *
  | |- context [if fs_writable ?c ?p then _ else _] =>
      let E := fresh "E" in destruct (fs_writable c p) eqn:E; simpl in *
  | |- context [match ?m !! ?k with Some _ => _ | None => _ end] =>
      let E := fresh "E" in destruct (m !! k) eqn:E; simpl in *
  end.

(** Splits a membership in a list that is written out. *)
Ltac in_list H :=
  simpl in H;
  repeat (apply elem_of_cons in H as [H|H]; [try discriminate H|]);
  try (by apply elem_of_nil in H).

(** Finds an element in a list that is written out. *)
Ltac find_in_list :=
  simpl; repeat first [apply list_elem_of_here | apply list_elem_of_further].

(** ** [main] is capture, then judge *)

Lemma main_capture_judge c g environ goldenPath approveGolden w :
  main c g environ goldenPath approveGolden w
  = (capture c g ≫= judge c g environ goldenPath approveGolden) w.
Proof.
  unfold_ops; simpl.
  repeat (next_answer; try reflexivity).
  all: destruct approveGolden; reflexivity.
Qed.

(** ** What a capture leaves behind *)

(** A capture returns a buffer exactly when every call of it answered; the
    world then differs by the viewport and by the eight events. *)
Lemma capture_returns c g w buf w' :
  capture c g w = (Ret buf, w') ->
  exists outputPath executablePath height,
    prerender_outputPath c = Ok outputPath /\
    runfiles_resolve c (chromiumExecutableRootPath g) = Ok executablePath /\
    puppeteer_launch c executablePath true = Ok tt /\
    browser_newPage c = Ok tt /\
    page_goto c ("file://" +:+ outputPath) = Ok tt /\
    body_scrollHeight c (page_viewport w) = Ok height /\
    page_setViewport c (MkViewport screenshotBrowserWidth height) = Ok tt /\
    page_screenshot c (MkViewport screenshotBrowserWidth height) = Ok buf /\
    browser_close c = Ok tt /\
    w' = MkWorld (fs w) (MkViewport screenshotBrowserWidth height)
           (trace w ++ capture_events outputPath executablePath (page_viewport w) height).
Proof.
  unfold_ops; simpl.
  repeat (next_answer; try discriminate).
  intros [= <- <-].
  repeat match goal with u : unit |- _ => destruct u end.
  eexists _, _, _. repeat (split; [eassumption || reflexivity|]).
  unfold capture_events. by rewrite <- !app_assoc.
Qed.

Lemma capture_fs c g w buf w' :
  capture c g w = (Ret buf, w') -> fs w' = fs w.
Proof.
  intros H. apply capture_returns in H as (? & ? & ? & H).
  decompose [and] H. by subst.
Qed.

(** Whatever happens, a capture touches no file, only adds to the trace, and
    adds browser events only. *)
Lemma capture_frame c g w :
  exists added, fs (capture c g w).2 = fs w /\
    trace (capture c g w).2 = trace w ++ added /\
    forallb is_browser added = true /\
    (count is_close added <= 1)%nat.
Proof.
  unfold_ops; simpl.
  repeat (next_answer;
          try (eexists; split; [reflexivity|]; rewrite <- ?app_assoc;
               split; [reflexivity|]; split; [reflexivity|]; vm_compute; lia)).
Qed.


Example replace_backslashes_windows :
  replace_backslashes "C:\out\image-diff.png" = "C:/out/image-diff.png".
Proof. reflexivity. Qed.

Example scenario_A :
  let c := Fixture.collab (Fixture.fine Fixture.red10x10) in
  let r := main c Fixture.globals Fixture.environ Fixture.goldenPath false
             (initial_world c (Fixture.files Fixture.red10x10)) in
  exit_code r = 0%Z /\ last (trace r.2) = Some (EvConsoleInfo [LStr "Screenshot golden matches."]).
Proof. vm_compute. split; reflexivity. Qed.

(** ** Runs that reach the comparison *)

Section Compared.

Variables (c : Collab) (g : Globals) (environ : gmap string string).
Variables (goldenPath : string) (w0 w1 : World).
Variables (buf goldenBuffer : bytes) (cur gold : PNG).

(** The capture returned [buf], which decodes to [cur]; the golden file
    holds [goldenBuffer], which decodes to [gold]. *)
Hypothesis Hcapture : capture c g w0 = (Ret buf, w1).
Hypothesis Hcur : fastpng_decode c buf = Ok cur.
Hypothesis Hfile : fs w0 !! goldenPath = Some goldenBuffer.
Hypothesis Hgold : fastpng_decode c goldenBuffer = Ok gold.

Lemma golden_still_there : fs w1 !! goldenPath = Some goldenBuffer.
Proof using Hcapture Hfile. by rewrite (capture_fs _ _ _ _ _ Hcapture). Qed.

Abbreviation w2 := (compared_world w1 goldenPath buf goldenBuffer cur gold).

(** A verify-mode run up to the answer of the pixel-diff. *)
Lemma main_compared :
  main c g environ goldenPath false w0
  = match pixelmatch c (png_data gold) (png_data cur) (blank cur)
            (png_width cur) (png_height cur) with
    | Ok (numDiffPixels, diffImageData) =>
        report c g environ cur numDiffPixels diffImageData w2
    | Throws e => (Raise e, w2)
    end.
Proof using Hcapture Hcur Hfile Hgold.
  rewrite main_capture_judge. unfold mbind at 1, M_bind at 1. rewrite Hcapture.
  unfold judge, verify, compared_world, comparison_events.
  unfold readFileSync, call, lift, log, mbind, M_bind. simpl.
  rewrite Hcur. simpl. rewrite golden_still_there. simpl. rewrite Hgold. simpl.
  fold (blank cur). rewrite <- !app_assoc. simpl.
  destruct (pixelmatch c _ _ _ _ _) as [[n d]|e]; reflexivity.
Qed.

(** C1 (amended): the comparison makes no dimension check.  In a
    verify-mode run whose capture returned a buffer, with both images
    decoding, the pixel-diff primitive is invoked, exactly once, on the
    golden's and the candidate's data with the candidate's width and
    height, whether or not the two images have the same dimensions. *)
Theorem pixelmatch_invoked_whatever_the_dimensions :
  let r := main c g environ goldenPath false w0 in
  exists after,
    trace r.2 = trace w1 ++ comparison_events goldenPath buf goldenBuffer cur gold ++ after /\
    count is_pixelmatch (comparison_events goldenPath buf goldenBuffer cur gold) = 1%nat /\
    count is_pixelmatch after = 0%nat.
Proof using Hcapture Hcur Hfile Hgold.
  intros r. subst r. rewrite main_compared. unfold compared_world.
  destruct (pixelmatch c _ _ _ _ _) as [[n d]|e]; unfold_ops; simpl.
  2: { exists []. unfold comparison_events. simpl. split_and!; reflexivity. }
  destruct (bool_decide (n ≠ 0%Z)); simpl; repeat next_answer.
  all: eexists; split; [rewrite <- !app_assoc; simpl; reflexivity | split; reflexivity].
Qed.

(** *** The golden is a copy of the candidate *)

Section Identical.

Variable channels : Z.

Hypothesis Hsame : gold = cur.
Hypothesis Hvalid : valid_buffer channels cur.
Hypothesis Hcontract : diff_reflexive channels c.

(** C8: when the golden decodes to the very pixel buffer the candidate
    decodes to, and that buffer is valid, the run compares the buffer
    with itself, logs a count of 0, prints that the golden matches and
    returns (exit code 0); nothing is written. *)
Theorem identical_buffers_match :
  let r := main c g environ goldenPath false w0 in
  r.1 = Ret tt /\ exit_code r = 0%Z /\
  trace r.2 = trace w1 ++ comparison_events goldenPath buf goldenBuffer cur cur
                ++ [diff_perc_event cur 0%Z;
                    EvConsoleInfo [LStr "Screenshot golden matches."]] /\
  fs r.2 = fs w0.
Proof using Hcapture Hcur Hfile Hgold Hsame Hvalid Hcontract.
  intros r. subst r. rewrite main_compared. unfold compared_world. rewrite Hsame.
  destruct (Hcontract (png_data cur) (blank cur) (png_width cur) (png_height cur))
    as [d ->]; [exact Hvalid | apply length_replicate |].
  unfold_ops. simpl. unfold diff_perc_event.
  rewrite <- !app_assoc, (capture_fs _ _ _ _ _ Hcapture). done.
Qed.

End Identical.

(** *** The pixel-diff answered with a count *)

Section Counted.

Variables (numDiffPixels : Z) (diffImageData : bytes).

Hypothesis Hdiff :
  pixelmatch c (png_data gold) (png_data cur) (blank cur)
    (png_width cur) (png_height cur) = Ok (numDiffPixels, diffImageData).

Lemma main_reported :
  main c g environ goldenPath false w0
  = report c g environ cur numDiffPixels diffImageData w2.
Proof using Hcapture Hcur Hfile Hgold Hdiff. by rewrite main_compared, Hdiff. Qed.

(** C3: once the pixel-diff has answered with a count, the run fails
    (exit code other than 0) if and only if the count is not 0, and it
    ends with exit code 0 when the count is 0.  The exit code is a
    function of the count alone: the logged quotient of the count by
    width times height, whatever the width and height, takes no part. *)
Theorem exit_code_decided_by_count :
  let r := main c g environ goldenPath false w0 in
  (exit_code r ≠ 0%Z <-> numDiffPixels ≠ 0%Z) /\
  (numDiffPixels = 0%Z -> exit_code r = 0%Z) /\
  exit_code r = (if bool_decide (numDiffPixels = 0%Z) then 0%Z else 1%Z) /\
  diff_perc_event cur numDiffPixels ∈ trace r.2.
Proof using Hcapture Hcur Hfile Hgold Hdiff.
  intros r. subst r. rewrite main_reported. unfold compared_world.
  unfold diff_perc_event. unfold_ops. simpl.
  destruct (decide (numDiffPixels = 0%Z)) as [->|Hn].
  - simpl. split_and!; [intuition congruence | done | done |].
    set_solver.
  - rewrite (bool_decide_eq_true_2 _ Hn), (bool_decide_eq_false_2 _ Hn).
    repeat next_answer.
    all: split_and!; [intuition congruence | done | done |].
    all: set_solver.
Qed.

(** *** The count is not 0, and the diff image is encoded and written *)

Section Mismatch.

Variable encoded : bytes.

Abbreviation diffImage := (diff_image cur diffImageData).

Hypothesis Hnonzero : numDiffPixels ≠ 0%Z.
Hypothesis Hencode : fastpng_encode c diffImage = Ok encoded.
Hypothesis Hwritable : fs_writable c (screenshotDiffPath g) = true.

(** C6: in a verify-mode run whose differing-pixel count is not 0
    (the diff image encoding and its file being writable), the encoded
    diff image is written to the diff path, then three messages are
    printed, which hold the count, the command that accepts the new
    golden and the location of the diff file, and then the process
    exits with code 1. *)
Theorem mismatch_persists_diff_and_reports :
  let r := main c g environ goldenPath false w0 in
  r = (Exited 1%Z,
       MkWorld (<[screenshotDiffPath g := encoded]> (fs w0)) (page_viewport w1)
         (trace w1 ++ comparison_events goldenPath buf goldenBuffer cur gold
            ++ [diff_perc_event cur numDiffPixels; EvEncode diffImage;
                EvWriteFile (screenshotDiffPath g) encoded]
            ++ mismatch_messages g environ numDiffPixels ++ [EvExit 1%Z])) /\
  fs r.2 !! screenshotDiffPath g = Some encoded /\
  exit_code r ≠ 0%Z.
Proof using Hcapture Hcur Hfile Hgold Hdiff Hnonzero Hencode Hwritable.
  intros r. subst r. rewrite main_reported. unfold compared_world, diff_image.
  unfold diff_perc_event, mismatch_messages. unfold_ops. simpl.
  pose proof Hencode as He. unfold diff_image in He.
  rewrite (bool_decide_eq_true_2 _ Hnonzero), He. simpl.
  rewrite Hwritable. simpl. rewrite (capture_fs _ _ _ _ _ Hcapture).
  split_and!; [| apply lookup_insert_eq | done].
  by rewrite <- !app_assoc.
Qed.

End Mismatch.

End Counted.

End Compared.

(** ** Verify mode, whatever happens *)

(** C7: in a verify-mode run, every file write is a write of the diff file
    and comes after a pixel-diff that reported a count other than 0, so the
    golden file (a file other than the diff file) keeps its content;
    conversely, when the pixel-diff reported a count other than 0 and the
    encoder answered, the diff file is written. *)
Theorem verify_mode_writes_only_the_diff c g environ goldenPath w0 :
  let r := main c g environ goldenPath false w0 in
  exists added,
    trace r.2 = trace w0 ++ added /\
    (forall path data, EvWriteFile path data ∈ added ->
       path = screenshotDiffPath g /\ reported_nonzero c added) /\
    (goldenPath ≠ screenshotDiffPath g -> fs r.2 !! goldenPath = fs w0 !! goldenPath) /\
    (reported_nonzero c added -> encodes_answered c added ->
       exists data, EvWriteFile (screenshotDiffPath g) data ∈ added).
Proof.
  intros r. subst r. unfold_ops. simpl.
  repeat first [next_answer | match goal with
    | |- context [let '(_, _) := ?a in _] => destruct a; simpl
    | |- context [bool_decide (?n ≠ 0%Z)] => destruct (decide (n = 0%Z)) as [->|?];
        [rewrite (bool_decide_eq_false_2 (0%Z ≠ 0%Z)) by (intros ?; congruence)
        | rewrite (bool_decide_eq_true_2 (n ≠ 0%Z)) by assumption]; simpl
    end].
  all: eexists; split; [rewrite <- ?app_assoc; simpl; reflexivity|].
  all: split; [intros path data Hin; in_list Hin|].
  all: try (injection Hin as -> ->; split; [reflexivity|];
            do 7 eexists; split_and!; [|eassumption|assumption]; set_solver).
  all: split; [intros Hne; try reflexivity; by rewrite lookup_insert_ne|].
  all: intros (i1 & i2 & o & wd & ht & n' & d' & Hin & Hans & Hn') Henc; in_list Hin.
  all: try solve [eexists; find_in_list].
  all: injection Hin as -> -> -> -> ->.
  all: try congruence.
  all: match goal with
       | E : fastpng_encode _ ?p = Throws _ |- _ =>
           destruct (Henc p) as [? ?]; [set_solver | congruence]
       end.
Qed.

(** ** The browser session *)

(** How a capture can end: with a buffer, after the eight calls; or with an
    exception, after browser events only, among which the close call appears
    only if it is the call that threw. *)
Lemma capture_outcomes c g w :
  (exists buf outputPath executablePath height,
     capture c g w
     = (Ret buf,
        MkWorld (fs w) (MkViewport screenshotBrowserWidth height)
          (trace w ++ capture_events outputPath executablePath (page_viewport w) height)) /\
     body_scrollHeight c (page_viewport w) = Ok height /\
     page_screenshot c (MkViewport screenshotBrowserWidth height) = Ok buf)
  \/
  (exists e w' added,
     capture c g w = (Raise e, w') /\ fs w' = fs w /\ trace w' = trace w ++ added /\
     forallb is_browser added = true /\
     (count is_close added = 0%nat
      \/ count is_close added = 1%nat /\ browser_close c = Throws e)).
Proof.
  unfold_ops; simpl.
  repeat (next_answer;
          try (right; do 3 eexists; split; [reflexivity|]; split; [reflexivity|];
               rewrite <- ?app_assoc; simpl;
               split; [reflexivity|]; split; [reflexivity|];
               first [left; reflexivity | right; split; reflexivity])).
  repeat match goal with u : unit |- _ => destruct u end.
  left. eexists _, _, _, _. split_and!; [|reflexivity|eassumption].
  unfold capture_events. by rewrite <- !app_assoc.
Qed.

(** After the capture the script does not touch the browser again. *)
Lemma judge_frame c g environ goldenPath approveGolden buf w :
  exists after,
    trace (judge c g environ goldenPath approveGolden buf w).2 = trace w ++ after /\
    forallb (fun e => negb (is_browser e)) after = true.
Proof.
  destruct approveGolden; unfold_ops; simpl.
  all: repeat first [next_answer | match goal with
    | |- context [let '(_, _) := ?a in _] => destruct a; simpl
    | |- context [bool_decide ?P] => destruct (bool_decide P); simpl
    end].
  all: eexists; split; [rewrite <- ?app_assoc; simpl; reflexivity | reflexivity].
Qed.

Lemma count_app p (t1 t2 : list Event) :
  count p (t1 ++ t2) = (count p t1 + count p t2)%nat.
Proof. unfold count. by rewrite filter_app, length_app. Qed.

Lemma count_none p (t : list Event) :
  forallb (fun e => negb (p e)) t = true -> count p t = 0%nat.
Proof.
  unfold count. induction t as [|e t IH]; simpl; [done|].
  intros [He Ht]%andb_prop. rewrite filter_cons.
  destruct (decide (p e = true)) as [Hp|Hp]; [by rewrite Hp in He | by apply IH].
Qed.

Lemma no_browser_no_close (t : list Event) :
  forallb (fun e => negb (is_browser e)) t = true ->
  forallb (fun e => negb (is_close e)) t = true.
Proof.
  induction t as [|e t IH]; simpl; [done|].
  intros [He Ht]%andb_prop. rewrite IH by done. by destruct e.
Qed.

(** C2 (amended): the close call is made at most once in a run.  When every
    step of the capture up to the screenshot call answers, it is made exactly
    once, right after the screenshot and before anything is written, printed
    or compared: no browser event follows it.  When a step before it throws
    (navigation, screenshot, ...), it is not made at all, and [main] ends
    with that exception (exit code 1). *)
Theorem close_only_after_a_successful_screenshot c g environ goldenPath approveGolden w0 :
  let r := main c g environ goldenPath approveGolden w0 in
  exists added,
    trace r.2 = trace w0 ++ added /\
    (count is_close added <= 1)%nat /\
    (forall buf w1, capture c g w0 = (Ret buf, w1) ->
       count is_close added = 1%nat /\
       exists outputPath executablePath height after,
         added = capture_events outputPath executablePath (page_viewport w0) height ++ after /\
         forallb (fun e => negb (is_browser e)) after = true) /\
    (forall e w1, capture c g w0 = (Raise e, w1) -> browser_close c = Ok tt ->
       count is_close added = 0%nat /\ r = (Raise e, w1) /\ exit_code r = 1%Z).
Proof.
  intros r. subst r. rewrite main_capture_judge. unfold mbind, M_bind.
  destruct (capture_outcomes c g w0)
    as [(buf & out & exe & h & Hcap & _ & _)
       |(e & w' & added & Hcap & _ & Ht & Hb & Hc)]; rewrite Hcap.
  - destruct (judge_frame c g environ goldenPath approveGolden buf
                (MkWorld (fs w0) (MkViewport screenshotBrowserWidth h)
                   (trace w0 ++ capture_events out exe (page_viewport w0) h)))
      as (after & -> & Hafter).
    exists (capture_events out exe (page_viewport w0) h ++ after).
    assert (count is_close (capture_events out exe (page_viewport w0) h ++ after) = 1%nat)
      as Hone.
    { rewrite count_app, (count_none is_close after) by by apply no_browser_no_close.
      reflexivity. }
    split_and!; [simpl; by rewrite <- app_assoc | lia | | intros ?? [=]].
    intros ? ? _. split; [done|]. by exists out, exe, h, after.
  - exists added. split_and!; [done | destruct Hc as [->|[-> _]]; lia | intros ?? [=] |].
    intros ? ? [= <- <-] Hok. split; [|done].
    destruct Hc as [?|[_ ?]]; [done | congruence].
Qed.

(** The order of the measurement and the resize, for every run whose capture
    returns a buffer: the height of the content is measured first, in the
    viewport the page has when it is opened (the browser's default one: the
    width has not been set at that point); the viewport is then set to the
    fixed width and that height, and the screenshot is taken in that
    viewport.  So the height of the screenshot is the height of the content
    at the default width, on every page and not only on the one below. *)
Theorem height_measured_then_viewport_resized
    c g environ goldenPath approveGolden files buf w1 :
  capture c g (initial_world c files) = (Ret buf, w1) ->
  let r := main c g environ goldenPath approveGolden (initial_world c files) in
  exists outputPath executablePath measuredHeight after,
    body_scrollHeight c (default_viewport c) = Ok measuredHeight /\
    page_screenshot c (MkViewport screenshotBrowserWidth measuredHeight) = Ok buf /\
    trace r.2
    = [EvRender; EvLaunch executablePath true; EvNewPage;
       EvGoto ("file://" +:+ outputPath);
       EvEvaluate (default_viewport c);
       EvSetViewport (MkViewport screenshotBrowserWidth measuredHeight);
       EvScreenshot (MkViewport screenshotBrowserWidth measuredHeight);
       EvClose] ++ after /\
    forallb (fun e => negb (is_browser e)) after = true.
Proof.
  intros Hcap r. subst r. rewrite main_capture_judge. unfold mbind, M_bind.
  rewrite Hcap.
  apply capture_returns in Hcap
    as (out & exe & h & _ & _ & _ & _ & _ & Hh & _ & Hshot & _ & ->).
  destruct (judge_frame c g environ goldenPath approveGolden buf
              (MkWorld (fs (initial_world c files)) (MkViewport screenshotBrowserWidth h)
                 (trace (initial_world c files)
                    ++ capture_events out exe (page_viewport (initial_world c files)) h)))
    as (after & -> & Hafter).
  by exists out, exe, h, after.
Qed.

(** ** Approve mode *)

(** C4: in an approve-mode run whose capture returned a buffer (the golden
    path being writable), the golden file is replaced by exactly that
    buffer, a message is printed and the run returns (exit code 0).  After
    the capture nothing else happens: nothing is decoded or compared, and no
    other file, the diff file included, is written. *)
Theorem approve_overwrites_golden c g environ goldenPath w0 w1 buf :
  capture c g w0 = (Ret buf, w1) ->
  fs_writable c goldenPath = true ->
  let r := main c g environ goldenPath true w0 in
  r = (Ret tt,
       MkWorld (<[goldenPath := buf]> (fs w0)) (page_viewport w1)
         (trace w1 ++ [EvWriteFile goldenPath buf;
                       EvConsoleInfo [LStr "Golden screenshot updated."]])) /\
  fs r.2 !! goldenPath = Some buf /\
  (forall path, path ≠ goldenPath -> fs r.2 !! path = fs w0 !! path) /\
  exit_code r = 0%Z.
Proof.
  intros Hcap Hw r. subst r. rewrite main_capture_judge. unfold mbind, M_bind.
  rewrite Hcap. unfold_ops. simpl. rewrite Hw. simpl.
  rewrite (capture_fs _ _ _ _ _ Hcap), <- !app_assoc. simpl.
  split_and!; [done | apply lookup_insert_eq | | done].
  intros path Hne. by rewrite lookup_insert_ne.
Qed.

(** Whatever happens in an approve-mode run, nothing is read, decoded,
    compared or encoded, and the only file that may be written is the
    golden. *)
Lemma approve_mode_never_compares c g environ goldenPath w0 :
  let r := main c g environ goldenPath true w0 in
  exists added,
    trace r.2 = trace w0 ++ added /\
    forallb (fun e => negb (is_read e || is_decode e || is_pixelmatch e || is_encode e))
      added = true /\
    (forall path data, EvWriteFile path data ∈ added -> path = goldenPath).
Proof.
  intros r. subst r. unfold_ops. simpl.
  repeat next_answer.
  all: eexists; split; [rewrite <- ?app_assoc; simpl; reflexivity|].
  all: split; [reflexivity|].
  all: intros path data Hin; in_list Hin.
  all: by injection Hin as -> ->.
Qed.

(** ** The command line and the environment *)


(** When the module-level code answers, the script runs [main] with the
    diff path joined from the output directory and with the flag read from
    the command line. *)
Lemma script_runs_main c environ argv w metadataPath resolved md chromium dir goldenPath :
  environ !! "WEB_TEST_METADATA" = Some metadataPath ->
  runfiles_resolve c (Some metadataPath) = Ok resolved ->
  require_metadata c resolved = Ok md ->
  chromium_of md = Ok chromium ->
  environ !! "TEST_UNDECLARED_OUTPUTS_DIR" = Some dir ->
  runfiles_resolveWorkspaceRelative c (drop 2 argv !! 0%nat) = Ok goldenPath ->
  script c environ argv w
  = catch (main c (MkGlobals chromium (Some dir) (path_join c dir "image-diff.png"))
             environ goldenPath (approveGolden argv))
          (fun e => _ ← console_error [LError e]; process_exit 1) w.
Proof.
  intros Hmd Hres Hreq Hchr Hdir Hgold. unfold script.
  rewrite Hmd, Hdir. unfold mbind, M_bind, lift, join.
  rewrite Hres, Hreq, Hchr, Hgold. reflexivity.
Qed.

(** The exit code of the process is then the one [exit_code] reads off the
    outcome of [main]: the handler of the rejected promise exits with 1. *)
Lemma run_exit_code c environ argv files metadataPath resolved md chromium dir goldenPath :
  environ !! "WEB_TEST_METADATA" = Some metadataPath ->
  runfiles_resolve c (Some metadataPath) = Ok resolved ->
  require_metadata c resolved = Ok md ->
  chromium_of md = Ok chromium ->
  environ !! "TEST_UNDECLARED_OUTPUTS_DIR" = Some dir ->
  runfiles_resolveWorkspaceRelative c (drop 2 argv !! 0%nat) = Ok goldenPath ->
  (run c environ argv files).1
  = exit_code (main c (MkGlobals chromium (Some dir) (path_join c dir "image-diff.png"))
                 environ goldenPath (approveGolden argv) (initial_world c files)).
Proof.
  intros Hmd Hres Hreq Hchr Hdir Hgold. unfold run.
  rewrite (script_runs_main _ _ _ _ _ _ _ _ _ _ Hmd Hres Hreq Hchr Hdir Hgold).
  unfold catch, exit_code.
  by destruct (main _ _ _ _ _ _) as [[?|?|?] ?].
Qed.

(** C10: the output directory is read from the environment, and the diff
    path joined from it, when the module is loaded, before the command line
    is looked at.  So in every run in which the variable is not defined,
    whatever the arguments (approve mode included), the process ends with
    exit code 1 before [main] starts: no browser event happens and no file
    is written. *)
Theorem output_directory_required c environ argv files :
  environ !! "TEST_UNDECLARED_OUTPUTS_DIR" = None ->
  let r := run c environ argv files in
  r.1 = 1%Z /\
  r.1 ≠ 0%Z /\
  fs r.2 = files /\
  forallb (fun e => negb (is_browser e || is_write e)) (trace r.2) = true.
Proof.
  intros Hdir r. subst r. unfold run, script. rewrite Hdir.
  unfold mbind, M_bind, lift, join, console_error, process_exit, call, lift, log,
    initial_world. simpl.
  repeat next_answer; done.
Qed.

(** ** The scenarios of the design document, run on the in-memory collaborators *)

(** Scenario B: a 10 by 10 golden and a 10 by 5 candidate.  The pixel-diff
    is called all the same; here it is the one that throws. *)
Example scenario_B :
  let c := Fixture.collab (Fixture.fine Fixture.red10x5) in
  let r := run c Fixture.environ Fixture.argv_verify (Fixture.files Fixture.red10x10) in
  r.1 = 1%Z /\
  count is_pixelmatch (trace r.2) = 1%nat /\
  count is_write (trace r.2) = 0%nat /\
  EvConsoleError [LError "Error: Image sizes do not match."] ∈ trace r.2.
Proof. vm_compute. split_and!; try reflexivity. find_in_list. Qed.

(** Scenario C: one pixel differs. *)
Example scenario_C :
  let c := Fixture.collab (Fixture.fine Fixture.red10x10_one_blue) in
  let r := run c Fixture.environ Fixture.argv_verify (Fixture.files Fixture.red10x10) in
  r.1 = 1%Z /\
  is_Some (fs r.2 !! "/outputs/image-diff.png") /\
  fs r.2 !! Fixture.goldenPath = Some Fixture.red10x10 /\
  EvConsoleError [LStr "Expected golden image to match. 1 pixels do not match."] ∈ trace r.2 /\
  EvConsoleError [LStr "See diff: file:///outputs/image-diff.png"] ∈ trace r.2 /\
  EvConsoleError
    [LStr "Command to update the golden: yarn bazel run //src/universal-app:server_test.accept"]
    ∈ trace r.2.
Proof. vm_compute. split_and!; try reflexivity; try find_in_list. by eexists. Qed.

(** Scenario D: approve mode. *)
Example scenario_D :
  let c := Fixture.collab (Fixture.fine Fixture.red10x10_one_blue) in
  let r := run c Fixture.environ Fixture.argv_approve (Fixture.files Fixture.red10x10) in
  r.1 = 0%Z /\
  fs r.2 !! Fixture.goldenPath = Some Fixture.red10x10_one_blue /\
  fs r.2 !! "/outputs/image-diff.png" = None /\
  count is_pixelmatch (trace r.2) = 0%nat.
Proof. vm_compute. split_and!; reflexivity. Qed.

(** ** Where the design document and the script part *)

(** C1, as stated, fails: with a 10 by 10 golden and a 10 by 5 candidate the
    pixel-diff primitive is invoked, on 400 and 200 bytes of data. *)
Lemma dimension_mismatch_reaches_pixelmatch :
  let c := Fixture.collab (Fixture.fine Fixture.red10x5) in
  let r := main c Fixture.globals Fixture.environ Fixture.goldenPath false
             (Fixture.start (Fixture.fine Fixture.red10x5) Fixture.red10x10) in
  Fixture.dims Fixture.red10x10 = Some (10%Z, 10%Z) /\
  Fixture.dims Fixture.red10x5 = Some (10%Z, 5%Z) /\
  count is_pixelmatch (trace r.2) = 1%nat /\
  EvPixelmatch (png_data (Fixture.image Fixture.red10x10))
    (png_data (Fixture.image Fixture.red10x5))
    (blank (Fixture.image Fixture.red10x5)) 10 5 ∈ trace r.2.
Proof. vm_compute. split_and!; try reflexivity. find_in_list. Qed.

(** C2, as stated, fails: when the navigation throws, the close call is not
    made and the process exits with code 1. *)
Lemma navigation_failure_skips_close :
  let s := Fixture.MkScenario Fixture.red10x10 false true true in
  let r := run (Fixture.collab s) Fixture.environ Fixture.argv_verify
             (Fixture.files Fixture.red10x10) in
  page_goto (Fixture.collab s) "file:///out/index.html"
    = Throws "Error: net::ERR_FILE_NOT_FOUND" /\
  EvGoto "file:///out/index.html" ∈ trace r.2 /\
  count is_close (trace r.2) = 0%nat /\
  count is_close (trace r.2) ≠ 1%nat /\
  r.1 = 1%Z.
Proof. vm_compute. split_and!; try reflexivity; [find_in_list | discriminate]. Qed.

(** C5 (defect of the code): the function is to make the viewport match
    the body content, at a large fixed width so that the screenshot does not
    become too large vertically, which needs the height of the content at
    that width.  The code measures the height before it sets the width: on a
    page that is 1920 high in the default viewport, 800 wide, and 800 high at
    the fixed width of 1920, the height is measured at 800 wide and the
    screenshot is taken in a viewport of 1920 by 1920, not 1920 by 800. *)
Lemma height_measured_before_width_is_set :
  let c := Fixture.collab (Fixture.fine Fixture.red10x10) in
  let r := main c Fixture.globals Fixture.environ Fixture.goldenPath false
             (Fixture.start (Fixture.fine Fixture.red10x10) Fixture.red10x10) in
  EvEvaluate (MkViewport 800 600) ∈ trace r.2 /\
  vp_width (MkViewport 800 600) ≠ screenshotBrowserWidth /\
  body_scrollHeight c (MkViewport 800 600) = Ok 1920%Z /\
  body_scrollHeight c (MkViewport screenshotBrowserWidth 600) = Ok 800%Z /\
  EvScreenshot (MkViewport screenshotBrowserWidth 1920) ∈ trace r.2.
Proof. vm_compute. split_and!; try reflexivity; try find_in_list. discriminate. Qed.

(** ** The in-memory pixel-diff honours the contract *)

Lemma diff_pixels_same_bounded (n : nat) (img : bytes) :
  (length img <= n)%nat -> (Fixture.diff_pixels img img).1 = 0%Z.
Proof.
  revert img. induction n as [|n IH]; intros img Hlen.
  - destruct img; [reflexivity | simpl in Hlen; lia].
  - destruct img as [|r [|g [|b [|a img]]]]; try reflexivity.
    simpl. rewrite bool_decide_eq_true_2 by reflexivity. simpl.
    apply IH. simpl in Hlen. lia.
Qed.

Lemma reference_diff_reflexive (s : Fixture.Scenario) :
  diff_reflexive 4 (Fixture.collab s).
Proof.
  intros img output width height Hsize Hout. simpl. unfold Fixture.reference_diff.
  rewrite (bool_decide_eq_true_2 (_ /\ _)) by done.
  rewrite (bool_decide_eq_true_2 (_ = _)) by done. simpl.
  pose proof (diff_pixels_same_bounded (length img) img (le_n _)) as H0.
  destruct (Fixture.diff_pixels img img) as [n d]. simpl in H0. subst n. by exists d.
Qed.

(** ** The theorems at work on concrete runs *)

(** C1 (amended), on scenario B. *)
Lemma pixelmatch_invoked_whatever_the_dimensions_witness :
  let s := Fixture.fine Fixture.red10x5 in
  let c := Fixture.collab s in
  let w0 := Fixture.start s Fixture.red10x10 in
  let w1 := Fixture.captured s Fixture.red10x10 in
  let cur := Fixture.image Fixture.red10x5 in
  let gold := Fixture.image Fixture.red10x10 in
  capture c Fixture.globals w0 = (Ret Fixture.red10x5, w1) /\
  fastpng_decode c Fixture.red10x5 = Ok cur /\
  fs w0 !! Fixture.goldenPath = Some Fixture.red10x10 /\
  fastpng_decode c Fixture.red10x10 = Ok gold /\
  exists after,
    trace (main c Fixture.globals Fixture.environ Fixture.goldenPath false w0).2
    = trace w1
      ++ comparison_events Fixture.goldenPath Fixture.red10x5 Fixture.red10x10 cur gold
      ++ after /\
    count is_pixelmatch
      (comparison_events Fixture.goldenPath Fixture.red10x5 Fixture.red10x10 cur gold)
    = 1%nat /\
    count is_pixelmatch after = 0%nat.
Proof.
  intros s c w0 w1 cur gold.
  assert (capture c Fixture.globals w0 = (Ret Fixture.red10x5, w1)) as H1
    by (vm_compute; reflexivity).
  assert (fastpng_decode c Fixture.red10x5 = Ok cur) as H2 by (vm_compute; reflexivity).
  assert (fs w0 !! Fixture.goldenPath = Some Fixture.red10x10) as H3
    by (vm_compute; reflexivity).
  assert (fastpng_decode c Fixture.red10x10 = Ok gold) as H4 by (vm_compute; reflexivity).
  split_and!; [exact H1 | exact H2 | exact H3 | exact H4 |].
  exact (pixelmatch_invoked_whatever_the_dimensions c Fixture.globals Fixture.environ
           Fixture.goldenPath w0 w1 Fixture.red10x5 Fixture.red10x10 cur gold H1 H2 H3 H4).
Defined.

(** C2 (amended), on a run in which everything answers: one close call. *)
Lemma close_only_after_a_successful_screenshot_witness :
  let s := Fixture.fine Fixture.red10x10 in
  let c := Fixture.collab s in
  let w0 := Fixture.start s Fixture.red10x10 in
  capture c Fixture.globals w0 = (Ret Fixture.red10x10, Fixture.captured s Fixture.red10x10) /\
  count is_close
    (trace (main c Fixture.globals Fixture.environ Fixture.goldenPath false w0).2) = 1%nat.
Proof.
  intros s c w0.
  assert (capture c Fixture.globals w0
          = (Ret Fixture.red10x10, Fixture.captured s Fixture.red10x10)) as H1
    by (vm_compute; reflexivity).
  split; [exact H1|].
  destruct (close_only_after_a_successful_screenshot c Fixture.globals Fixture.environ
              Fixture.goldenPath false w0) as (added & Ht & _ & Hret & _).
  rewrite Ht. destruct (Hret _ _ H1) as [Hone _]. exact Hone.
Defined.

(** C3, on scenario C: a count of 1, exit code 1. *)
Lemma exit_code_decided_by_count_witness :
  let s := Fixture.fine Fixture.red10x10_one_blue in
  let c := Fixture.collab s in
  let w0 := Fixture.start s Fixture.red10x10 in
  let w1 := Fixture.captured s Fixture.red10x10 in
  let cur := Fixture.image Fixture.red10x10_one_blue in
  let gold := Fixture.image Fixture.red10x10 in
  let diff := (Fixture.diff_pixels (png_data gold) (png_data cur)).2 in
  capture c Fixture.globals w0 = (Ret Fixture.red10x10_one_blue, w1) /\
  fastpng_decode c Fixture.red10x10_one_blue = Ok cur /\
  fs w0 !! Fixture.goldenPath = Some Fixture.red10x10 /\
  fastpng_decode c Fixture.red10x10 = Ok gold /\
  pixelmatch c (png_data gold) (png_data cur) (blank cur) (png_width cur) (png_height cur)
    = Ok (1%Z, diff) /\
  exit_code (main c Fixture.globals Fixture.environ Fixture.goldenPath false w0) = 1%Z.
Proof.
  intros s c w0 w1 cur gold diff.
  assert (capture c Fixture.globals w0 = (Ret Fixture.red10x10_one_blue, w1)) as H1
    by (vm_compute; reflexivity).
  assert (fastpng_decode c Fixture.red10x10_one_blue = Ok cur) as H2
    by (vm_compute; reflexivity).
  assert (fs w0 !! Fixture.goldenPath = Some Fixture.red10x10) as H3
    by (vm_compute; reflexivity).
  assert (fastpng_decode c Fixture.red10x10 = Ok gold) as H4 by (vm_compute; reflexivity).
  assert (pixelmatch c (png_data gold) (png_data cur) (blank cur)
            (png_width cur) (png_height cur) = Ok (1%Z, diff)) as H5
    by (vm_compute; reflexivity).
  split_and!; [exact H1 | exact H2 | exact H3 | exact H4 | exact H5 |].
  destruct (exit_code_decided_by_count c Fixture.globals Fixture.environ
              Fixture.goldenPath w0 w1 Fixture.red10x10_one_blue Fixture.red10x10
              cur gold H1 H2 H3 H4 1%Z diff H5) as (_ & _ & Hcode & _).
  exact Hcode.
Defined.

(** C4, on scenario D. *)
Lemma approve_overwrites_golden_witness :
  let s := Fixture.fine Fixture.red10x10_one_blue in
  let c := Fixture.collab s in
  let w0 := Fixture.start s Fixture.red10x10 in
  let w1 := Fixture.captured s Fixture.red10x10 in
  let r := main c Fixture.globals Fixture.environ Fixture.goldenPath true w0 in
  capture c Fixture.globals w0 = (Ret Fixture.red10x10_one_blue, w1) /\
  fs_writable c Fixture.goldenPath = true /\
  fs r.2 !! Fixture.goldenPath = Some Fixture.red10x10_one_blue /\
  exit_code r = 0%Z.
Proof.
  intros s c w0 w1 r.
  assert (capture c Fixture.globals w0 = (Ret Fixture.red10x10_one_blue, w1)) as H1
    by (vm_compute; reflexivity).
  assert (fs_writable c Fixture.goldenPath = true) as H2 by reflexivity.
  destruct (approve_overwrites_golden c Fixture.globals Fixture.environ
              Fixture.goldenPath w0 w1 Fixture.red10x10_one_blue H1 H2)
    as (_ & Hfile & _ & Hcode).
  split_and!; [exact H1 | exact H2 | exact Hfile | exact Hcode].
Defined.

(** The order of the measurement and the resize, on a run in which
    everything answers. *)
Lemma height_measured_then_viewport_resized_witness :
  let s := Fixture.fine Fixture.red10x10 in
  let c := Fixture.collab s in
  let r := main c Fixture.globals Fixture.environ Fixture.goldenPath false
             (initial_world c (Fixture.files Fixture.red10x10)) in
  capture c Fixture.globals (initial_world c (Fixture.files Fixture.red10x10))
    = (Ret Fixture.red10x10, Fixture.captured s Fixture.red10x10) /\
  exists outputPath executablePath measuredHeight after,
    body_scrollHeight c (default_viewport c) = Ok measuredHeight /\
    page_screenshot c (MkViewport screenshotBrowserWidth measuredHeight)
      = Ok Fixture.red10x10 /\
    trace r.2
    = [EvRender; EvLaunch executablePath true; EvNewPage;
       EvGoto ("file://" +:+ outputPath);
       EvEvaluate (default_viewport c);
       EvSetViewport (MkViewport screenshotBrowserWidth measuredHeight);
       EvScreenshot (MkViewport screenshotBrowserWidth measuredHeight);
       EvClose] ++ after /\
    forallb (fun e => negb (is_browser e)) after = true.
Proof.
  intros s c r.
  assert (capture c Fixture.globals (initial_world c (Fixture.files Fixture.red10x10))
          = (Ret Fixture.red10x10, Fixture.captured s Fixture.red10x10)) as H1
    by (vm_compute; reflexivity).
  split; [exact H1|].
  exact (height_measured_then_viewport_resized c Fixture.globals Fixture.environ
           Fixture.goldenPath false (Fixture.files Fixture.red10x10) Fixture.red10x10
           (Fixture.captured s Fixture.red10x10) H1).
Defined.

(** C6, on scenario C. *)
Lemma mismatch_persists_diff_and_reports_witness :
  let s := Fixture.fine Fixture.red10x10_one_blue in
  let c := Fixture.collab s in
  let w0 := Fixture.start s Fixture.red10x10 in
  let w1 := Fixture.captured s Fixture.red10x10 in
  let cur := Fixture.image Fixture.red10x10_one_blue in
  let gold := Fixture.image Fixture.red10x10 in
  let diff := (Fixture.diff_pixels (png_data gold) (png_data cur)).2 in
  let encoded := Byte.x0a :: Byte.x0a :: diff in
  let r := main c Fixture.globals Fixture.environ Fixture.goldenPath false w0 in
  capture c Fixture.globals w0 = (Ret Fixture.red10x10_one_blue, w1) /\
  fastpng_decode c Fixture.red10x10_one_blue = Ok cur /\
  fs w0 !! Fixture.goldenPath = Some Fixture.red10x10 /\
  fastpng_decode c Fixture.red10x10 = Ok gold /\
  pixelmatch c (png_data gold) (png_data cur) (blank cur) (png_width cur) (png_height cur)
    = Ok (1%Z, diff) /\
  1%Z ≠ 0%Z /\
  fastpng_encode c (MkPNG (png_width cur) (png_height cur) diff) = Ok encoded /\
  fs_writable c (screenshotDiffPath Fixture.globals) = true /\
  fs r.2 !! screenshotDiffPath Fixture.globals = Some encoded /\
  exit_code r ≠ 0%Z.
Proof.
  intros s c w0 w1 cur gold diff encoded r.
  assert (capture c Fixture.globals w0 = (Ret Fixture.red10x10_one_blue, w1)) as H1
    by (vm_compute; reflexivity).
  assert (fastpng_decode c Fixture.red10x10_one_blue = Ok cur) as H2
    by (vm_compute; reflexivity).
  assert (fs w0 !! Fixture.goldenPath = Some Fixture.red10x10) as H3
    by (vm_compute; reflexivity).
  assert (fastpng_decode c Fixture.red10x10 = Ok gold) as H4 by (vm_compute; reflexivity).
  assert (pixelmatch c (png_data gold) (png_data cur) (blank cur)
            (png_width cur) (png_height cur) = Ok (1%Z, diff)) as H5
    by (vm_compute; reflexivity).
  assert (1%Z ≠ 0%Z) as H6 by lia.
  assert (fastpng_encode c (MkPNG (png_width cur) (png_height cur) diff) = Ok encoded)
    as H7 by (vm_compute; reflexivity).
  assert (fs_writable c (screenshotDiffPath Fixture.globals) = true) as H8 by reflexivity.
  destruct (mismatch_persists_diff_and_reports c Fixture.globals Fixture.environ
              Fixture.goldenPath w0 w1 Fixture.red10x10_one_blue Fixture.red10x10
              cur gold H1 H2 H3 H4 1%Z diff H5 encoded H6 H7 H8) as (_ & Hfile & Hcode).
  split_and!; [exact H1 | exact H2 | exact H3 | exact H4 | exact H5 | exact H6
              | exact H7 | exact H8 | exact Hfile | exact Hcode].
Defined.

(** C7, on scenario C: the diff file is the only file written and the
    golden keeps its content. *)
Lemma verify_mode_writes_only_the_diff_witness :
  let s := Fixture.fine Fixture.red10x10_one_blue in
  let c := Fixture.collab s in
  let w0 := Fixture.start s Fixture.red10x10 in
  let r := main c Fixture.globals Fixture.environ Fixture.goldenPath false w0 in
  Fixture.goldenPath ≠ screenshotDiffPath Fixture.globals /\
  fs r.2 !! Fixture.goldenPath = Some Fixture.red10x10.
Proof.
  intros s c w0 r.
  assert (Fixture.goldenPath ≠ screenshotDiffPath Fixture.globals) as H1 by discriminate.
  split; [exact H1|].
  destruct (verify_mode_writes_only_the_diff c Fixture.globals Fixture.environ
              Fixture.goldenPath w0) as (added & _ & _ & Hgolden & _).
  exact (Hgolden H1).
Defined.

(** C8, on scenario A. *)
Lemma identical_buffers_match_witness :
  let s := Fixture.fine Fixture.red10x10 in
  let c := Fixture.collab s in
  let w0 := Fixture.start s Fixture.red10x10 in
  let w1 := Fixture.captured s Fixture.red10x10 in
  let cur := Fixture.image Fixture.red10x10 in
  let r := main c Fixture.globals Fixture.environ Fixture.goldenPath false w0 in
  capture c Fixture.globals w0 = (Ret Fixture.red10x10, w1) /\
  fastpng_decode c Fixture.red10x10 = Ok cur /\
  fs w0 !! Fixture.goldenPath = Some Fixture.red10x10 /\
  valid_buffer 4 cur /\
  diff_reflexive 4 c /\
  r.1 = Ret tt /\ exit_code r = 0%Z.
Proof.
  intros s c w0 w1 cur r.
  assert (capture c Fixture.globals w0 = (Ret Fixture.red10x10, w1)) as H1
    by (vm_compute; reflexivity).
  assert (fastpng_decode c Fixture.red10x10 = Ok cur) as H2 by (vm_compute; reflexivity).
  assert (fs w0 !! Fixture.goldenPath = Some Fixture.red10x10) as H3
    by (vm_compute; reflexivity).
  assert (valid_buffer 4 cur) as H4 by (vm_compute; reflexivity).
  pose proof (reference_diff_reflexive s) as H5.
  destruct (identical_buffers_match c Fixture.globals Fixture.environ
              Fixture.goldenPath w0 w1 Fixture.red10x10 Fixture.red10x10
              cur cur H1 H2 H3 H2 4%Z eq_refl H4 H5) as (Hret & Hcode & _).
  split_and!; [exact H1 | exact H2 | exact H3 | exact H4 | exact H5 | exact Hret | exact Hcode].
Defined.


(** C10, on an approve-mode run without the output directory. *)
Lemma output_directory_required_witness :
  let c := Fixture.collab (Fixture.fine Fixture.red10x10) in
  let environ : gmap string string := {[ "WEB_TEST_METADATA" := "/meta.json" ]} in
  let r := run c environ Fixture.argv_approve (Fixture.files Fixture.red10x10) in
  environ !! "TEST_UNDECLARED_OUTPUTS_DIR" = None /\
  approveGolden Fixture.argv_approve = true /\
  r.1 = 1%Z /\
  fs r.2 = Fixture.files Fixture.red10x10.
Proof.
  intros c environ r.
  assert (environ !! "TEST_UNDECLARED_OUTPUTS_DIR" = None) as H1 by (vm_compute; reflexivity).
  destruct (output_directory_required c environ Fixture.argv_approve
              (Fixture.files Fixture.red10x10) H1) as (Hcode & _ & Hfs & _).
  split_and!; [exact H1 | reflexivity | exact Hcode | exact Hfs].
Defined.

(** * Further properties of the script *)

(** ** Proof steps for whole runs *)

(** Every answer [main] can wait for, one after the other. *)
Ltac all_answers :=
  repeat first
    [ next_answer
    | match goal with
      | |- context [let '(_, _) := ?a in _] => destruct a; simpl
      | |- context [bool_decide (?n ≠ 0%Z)] =>
          destruct (decide (n = 0%Z)) as [->|?];
          [rewrite (bool_decide_eq_false_2 (0%Z ≠ 0%Z)) by (intros ?; congruence)
          | rewrite (bool_decide_eq_true_2 (n ≠ 0%Z)) by assumption]; simpl
      end ].

(** What the handler of line 60 makes of the three ways [main] can end. *)
Lemma catch_report_rejection (m : M unit) w :
  catch m (fun e => _ ← console_error [LError e]; process_exit 1) w
  = match m w with
    | (Ret a, w') => (Ret a, w')
    | (Raise e, w') =>
        (Exited 1%Z,
         MkWorld (fs w') (page_viewport w') (trace w' ++ [EvConsoleError [LError e]; EvExit 1%Z]))
    | (Exited code, w') => (Exited code, w')
    end.
Proof.
  unfold catch. destruct (m w) as [[a|e|code] w']; try reflexivity.
  unfold_ops. simpl. by rewrite <- app_assoc.
Qed.

(** The module-level code either hands over to [main], or throws before any
    event, or finds no metadata variable and exits. *)
Lemma script_cases c environ argv w :
  (exists chromium dir goldenPath,
     environ !! "TEST_UNDECLARED_OUTPUTS_DIR" = Some dir /\
     script c environ argv w
     = catch (main c (MkGlobals chromium (Some dir) (path_join c dir "image-diff.png"))
                environ goldenPath (approveGolden argv))
             (fun e => _ ← console_error [LError e]; process_exit 1) w)
  \/ (exists e, script c environ argv w = (Raise e, w))
  \/ (environ !! "WEB_TEST_METADATA" = None /\
      exists msg,
        script c environ argv w
        = (Exited 1%Z,
           MkWorld (fs w) (page_viewport w)
             (trace w ++ [EvConsoleError [LStr msg]; EvExit 1%Z]))).
Proof.
  unfold script.
  destruct (environ !! "WEB_TEST_METADATA") as [metadataPath|] eqn:Hmd.
  - unfold mbind, M_bind, lift, join.
    destruct (runfiles_resolve c (Some metadataPath)); [|right; left; by eexists].
    destruct (require_metadata c a) as [md|]; [|right; left; by eexists].
    destruct (chromium_of md) as [chromium|]; [|right; left; by eexists].
    destruct (environ !! "TEST_UNDECLARED_OUTPUTS_DIR") as [dir|] eqn:Hdir;
      [|right; left; by eexists].
    destruct (runfiles_resolveWorkspaceRelative c (drop 2 argv !! 0%nat)) as [gp|];
      [|right; left; by eexists].
    left. by exists chromium, dir, gp.
  - right. right. split; [done|]. eexists. unfold_ops. simpl.
    by rewrite <- app_assoc.
Qed.

(** [main] starts with the rendering, whatever happens next. *)
Lemma main_starts_with_render c g environ goldenPath approveGolden w0 :
  exists rest,
    trace (main c g environ goldenPath approveGolden w0).2 = trace w0 ++ EvRender :: rest.
Proof.
  destruct approveGolden; unfold_ops; simpl; all_answers.
  all: eexists; rewrite <- ?app_assoc; simpl; reflexivity.
Qed.

(** [main] can only stop the process with code 1. *)
Lemma main_exits_with_1 c g environ goldenPath approveGolden w0 code w' :
  main c g environ goldenPath approveGolden w0 = (Exited code, w') -> code = 1%Z.
Proof.
  destruct approveGolden; unfold_ops; simpl; all_answers; congruence.
Qed.

(** X1: rendering is the first thing a run does.  Every run either reaches
    [main], and then its first event is the call of the renderer, or ends with
    exit code 1 having at most printed one message: no file is touched and
    neither the browser, the codec nor the pixel-diff is used. *)
Theorem run_renders_first_or_fails_early c environ argv files :
  let r := run c environ argv files in
  (exists rest, trace r.2 = EvRender :: rest)
  \/ (r.1 = 1%Z /\ fs r.2 = files /\
      forallb (fun e => negb (is_browser e || is_io e)) (trace r.2) = true).
Proof.
  intros r. subst r. unfold run.
  destruct (script_cases c environ argv (initial_world c files))
    as [(chromium & dir & gp & _ & ->)|[(e & ->)|(_ & msg & ->)]].
  - left. rewrite catch_report_rejection.
    destruct (main_starts_with_render c
                (MkGlobals chromium (Some dir) (path_join c dir "image-diff.png"))
                environ gp (approveGolden argv) (initial_world c files)) as [rest Hrest].
    destruct (main _ _ _ _ _ _) as [[a|e|code] w']; simpl in *; rewrite Hrest;
      eexists; simpl; reflexivity.
  - right. done.
  - right. done.
Qed.

(** X2: the exit code of a run is 0 or 1, whatever the collaborators do. *)
Theorem run_exit_code_0_or_1 c environ argv files :
  (run c environ argv files).1 = 0%Z \/ (run c environ argv files).1 = 1%Z.
Proof.
  unfold run.
  destruct (script_cases c environ argv (initial_world c files))
    as [(chromium & dir & gp & _ & ->)|[(e & ->)|(_ & msg & ->)]];
    [|by right|by right].
  rewrite catch_report_rejection.
  destruct (main _ _ _ _ _ _) as [[a|e|code] w'] eqn:Hmain; simpl; [by left|by right|].
  right. by eapply main_exits_with_1.
Qed.

(** What a run of [main] that returns has done. *)
Lemma main_returns c g environ goldenPath approveGolden w0 w' :
  main c g environ goldenPath approveGolden w0 = (Ret tt, w') ->
  exists added,
    trace w' = trace w0 ++ added /\
    count is_close added = 1%nat /\
    count is_exit added = 0%nat /\
    count is_uncaught added = 0%nat /\
    (if approveGolden
     then last added = Some golden_updated /\ count is_write added = 1%nat /\
          count is_pixelmatch added = 0%nat
     else last added = Some golden_matches /\ count is_write added = 0%nat /\
          count is_pixelmatch added = 1%nat /\ fs w' = fs w0).
Proof.
  destruct approveGolden; unfold_ops; simpl; all_answers; try discriminate.
  all: intros [= <-]; simpl.
  all: eexists; split; [rewrite <- ?app_assoc; simpl; reflexivity|].
  all: split_and!; reflexivity.
Qed.

(** X3: a run that ends with exit code 0 has closed the browser, exactly
    once, and has stopped neither by [process.exit] nor by an uncaught
    exception.  In approve mode it wrote one file and its last word is that
    the golden was updated; in verify mode it compared once, wrote nothing,
    left every file as it was, and its last word is that the golden
    matches. *)
Theorem successful_run_closed_the_browser c environ argv files :
  let r := run c environ argv files in
  r.1 = 0%Z ->
  count is_close (trace r.2) = 1%nat /\
  count is_exit (trace r.2) = 0%nat /\
  count is_uncaught (trace r.2) = 0%nat /\
  (if approveGolden argv
   then last (trace r.2) = Some golden_updated /\ count is_write (trace r.2) = 1%nat /\
        count is_pixelmatch (trace r.2) = 0%nat
   else last (trace r.2) = Some golden_matches /\ count is_write (trace r.2) = 0%nat /\
        count is_pixelmatch (trace r.2) = 1%nat /\ fs r.2 = files).
Proof.
  intros r. subst r. unfold run.
  destruct (script_cases c environ argv (initial_world c files))
    as [(chromium & dir & gp & _ & ->)|[(e & ->)|(_ & msg & ->)]];
    [|discriminate|discriminate].
  rewrite catch_report_rejection.
  destruct (main _ _ _ _ _ _) as [[[]|e|code] w'] eqn:Hmain; simpl;
    [|discriminate|].
  - intros _. apply main_returns in Hmain as (added & Ht & H). simpl in Ht.
    by rewrite Ht.
  - intros ->. apply main_exits_with_1 in Hmain. discriminate.
Qed.

(** X3, on scenario A. *)
Lemma successful_run_closed_the_browser_witness :
  let c := Fixture.collab (Fixture.fine Fixture.red10x10) in
  let r := run c Fixture.environ Fixture.argv_verify (Fixture.files Fixture.red10x10) in
  r.1 = 0%Z /\ count is_close (trace r.2) = 1%nat /\ last (trace r.2) = Some golden_matches.
Proof.
  intros c r.
  assert (r.1 = 0%Z) as H1 by (vm_compute; reflexivity).
  destruct (successful_run_closed_the_browser c Fixture.environ Fixture.argv_verify
              (Fixture.files Fixture.red10x10) H1) as (Hclose & _ & _ & Hlast & _).
  split_and!; [exact H1 | exact Hclose | exact Hlast].
Defined.

(** ** Files *)

(** X4: [main] writes at most one file, the golden in approve mode and the
    diff file in verify mode: every other file keeps its content, no file
    disappears, and when nothing is written the files are as they were. *)
Theorem main_changes_one_file_at_most c g environ goldenPath approveGolden w0 :
  let r := main c g environ goldenPath approveGolden w0 in
  exists added,
    trace r.2 = trace w0 ++ added /\
    (count is_write added <= 1)%nat /\
    (forall path data, EvWriteFile path data ∈ added ->
       path = if approveGolden then goldenPath else screenshotDiffPath g) /\
    (forall path, path ≠ (if approveGolden then goldenPath else screenshotDiffPath g) ->
       fs r.2 !! path = fs w0 !! path) /\
    (forall path, is_Some (fs w0 !! path) -> is_Some (fs r.2 !! path)) /\
    (count is_write added = 0%nat -> fs r.2 = fs w0).
Proof.
  intros r. subst r. destruct approveGolden; unfold_ops; simpl; all_answers.
  all: eexists; split; [rewrite <- ?app_assoc; simpl; reflexivity|].
  all: split; [vm_compute; lia|].
  all: split; [intros path data Hin; in_list Hin; by injection Hin as -> ->|].
  all: split; [intros path Hne; try reflexivity; by rewrite lookup_insert_ne|].
  all: split; [|try reflexivity; by vm_compute].
  all: intros path Hsome; try exact Hsome.
  all: rewrite lookup_insert; case_decide; [by eexists | exact Hsome].
Qed.

(** X4, on scenario C: the golden is still there after a mismatch. *)
Lemma main_changes_one_file_at_most_witness :
  let s := Fixture.fine Fixture.red10x10_one_blue in
  let w0 := Fixture.start s Fixture.red10x10 in
  let r := main (Fixture.collab s) Fixture.globals Fixture.environ Fixture.goldenPath
             false w0 in
  is_Some (fs w0 !! Fixture.goldenPath) /\ is_Some (fs r.2 !! Fixture.goldenPath).
Proof.
  intros s w0 r.
  assert (is_Some (fs w0 !! Fixture.goldenPath)) as H1 by (vm_compute; by eexists).
  split; [exact H1|].
  destruct (main_changes_one_file_at_most (Fixture.collab s) Fixture.globals
              Fixture.environ Fixture.goldenPath false w0)
    as (added & _ & _ & _ & _ & Hkeep & _).
  exact (Hkeep _ H1).
Defined.

(** X5: when the capture throws, [main] ends with that exception and has
    done nothing but browser calls: no file is read or written, nothing is
    decoded, compared or printed, and the files are as they were. *)
Theorem failed_capture_does_nothing_else c g environ goldenPath approveGolden w0 w1 e :
  capture c g w0 = (Raise e, w1) ->
  main c g environ goldenPath approveGolden w0 = (Raise e, w1) /\
  fs w1 = fs w0 /\
  exists added, trace w1 = trace w0 ++ added /\ forallb is_browser added = true.
Proof.
  intros Hcap. rewrite main_capture_judge. unfold mbind, M_bind. rewrite Hcap.
  split; [done|].
  destruct (capture_outcomes c g w0)
    as [(? & ? & ? & ? & Hret & _)|(e' & w' & added & Hraise & Hfs & Ht & Hb & _)].
  - congruence.
  - rewrite Hcap in Hraise. injection Hraise as <- <-. split; [done|]. by exists added.
Qed.

(** X5, on a screenshot call that throws. *)
Lemma failed_capture_does_nothing_else_witness :
  let s := Fixture.MkScenario Fixture.red10x10 true false true in
  let w0 := Fixture.start s Fixture.red10x10 in
  capture (Fixture.collab s) Fixture.globals w0
    = (Raise "Error: Protocol error", Fixture.captured s Fixture.red10x10) /\
  main (Fixture.collab s) Fixture.globals Fixture.environ Fixture.goldenPath true w0
    = (Raise "Error: Protocol error", Fixture.captured s Fixture.red10x10).
Proof.
  intros s w0.
  assert (capture (Fixture.collab s) Fixture.globals w0
          = (Raise "Error: Protocol error", Fixture.captured s Fixture.red10x10)) as H1
    by (vm_compute; reflexivity).
  split; [exact H1|].
  exact (proj1 (failed_capture_does_nothing_else (Fixture.collab s) Fixture.globals
                  Fixture.environ Fixture.goldenPath true w0 _ _ H1)).
Defined.

(** ** Verify mode, when something is missing *)

(** X6: a verify-mode run passes only through the comparison.  If the
    pixel-diff was not called, the run fails (exit code 1) without having
    written a file. *)
Theorem verify_without_comparison_fails c g environ goldenPath w0 :
  let r := main c g environ goldenPath false w0 in
  exists added,
    trace r.2 = trace w0 ++ added /\
    (count is_pixelmatch added = 0%nat ->
       exit_code r = 1%Z /\ fs r.2 = fs w0 /\ count is_write added = 0%nat).
Proof.
  intros r. subst r. unfold_ops; simpl; all_answers.
  all: eexists; split; [rewrite <- ?app_assoc; simpl; reflexivity|].
  all: intros Hcount; try done.
Qed.

(** X6, on a run whose navigation throws. *)
Lemma verify_without_comparison_fails_witness :
  let s := Fixture.MkScenario Fixture.red10x10 false true true in
  let w0 := Fixture.start s Fixture.red10x10 in
  let r := main (Fixture.collab s) Fixture.globals Fixture.environ Fixture.goldenPath
             false w0 in
  count is_pixelmatch (trace r.2) = 0%nat /\ exit_code r = 1%Z.
Proof.
  intros s w0 r.
  assert (count is_pixelmatch (trace r.2) = 0%nat) as H1 by (vm_compute; reflexivity).
  split; [exact H1|].
  destruct (verify_without_comparison_fails (Fixture.collab s) Fixture.globals
              Fixture.environ Fixture.goldenPath w0) as (added & Ht & H).
  fold r in Ht. rewrite Ht in H1. exact (proj1 (H H1)).
Defined.

(** X7: in verify mode, when there is no file at the golden path, [main]
    ends with the exception of [readFileSync].  The browser is closed and the
    candidate decoded by then; the pixel-diff is not called and nothing is
    written or printed. *)
Theorem missing_golden_stops_before_comparison c g environ goldenPath w0 w1 buf cur :
  capture c g w0 = (Ret buf, w1) ->
  fastpng_decode c buf = Ok cur ->
  fs w0 !! goldenPath = None ->
  main c g environ goldenPath false w0
  = (Raise ("ENOENT: no such file or directory, open " +:+ goldenPath),
     MkWorld (fs w0) (page_viewport w1)
       (trace w1 ++ [EvDecode buf; EvReadFile goldenPath])).
Proof.
  intros Hcap Hcur Hfile. rewrite main_capture_judge. unfold mbind at 1, M_bind at 1.
  rewrite Hcap. unfold judge, verify, readFileSync, call, lift, log, mbind, M_bind.
  simpl. rewrite Hcur. simpl.
  rewrite (capture_fs _ _ _ _ _ Hcap), Hfile. simpl. by rewrite <- app_assoc.
Qed.

(** X7, on a run without a golden on disk. *)
Lemma missing_golden_stops_before_comparison_witness :
  let s := Fixture.fine Fixture.red10x10 in
  let c := Fixture.collab s in
  let w0 := initial_world c ∅ in
  let w1 := (capture c Fixture.globals w0).2 in
  capture c Fixture.globals w0 = (Ret Fixture.red10x10, w1) /\
  fastpng_decode c Fixture.red10x10 = Ok (Fixture.image Fixture.red10x10) /\
  fs w0 !! Fixture.goldenPath = None /\
  exit_code (main c Fixture.globals Fixture.environ Fixture.goldenPath false w0) = 1%Z.
Proof.
  intros s c w0 w1.
  assert (capture c Fixture.globals w0 = (Ret Fixture.red10x10, w1)) as H1
    by (vm_compute; reflexivity).
  assert (fastpng_decode c Fixture.red10x10 = Ok (Fixture.image Fixture.red10x10)) as H2
    by (vm_compute; reflexivity).
  assert (fs w0 !! Fixture.goldenPath = None) as H3 by (vm_compute; reflexivity).
  split_and!; [exact H1 | exact H2 | exact H3 |].
  rewrite (missing_golden_stops_before_comparison c Fixture.globals Fixture.environ
             Fixture.goldenPath w0 w1 _ _ H1 H2 H3).
  reflexivity.
Defined.

(** X8: when the pixel-diff throws, [main] ends with that exception right
    after the call: the diff percentage is not logged, no image is encoded
    and no file is written. *)
Theorem pixelmatch_exception_ends_main
    c g environ goldenPath w0 w1 buf goldenBuffer cur gold e :
  capture c g w0 = (Ret buf, w1) ->
  fastpng_decode c buf = Ok cur ->
  fs w0 !! goldenPath = Some goldenBuffer ->
  fastpng_decode c goldenBuffer = Ok gold ->
  pixelmatch c (png_data gold) (png_data cur) (blank cur) (png_width cur) (png_height cur)
    = Throws e ->
  main c g environ goldenPath false w0
  = (Raise e,
     MkWorld (fs w0) (page_viewport w1)
       (trace w1 ++ comparison_events goldenPath buf goldenBuffer cur gold)).
Proof.
  intros Hcap Hcur Hfile Hgold Hthrow.
  rewrite (main_compared c g environ goldenPath w0 w1 buf goldenBuffer cur gold
             Hcap Hcur Hfile Hgold), Hthrow.
  unfold compared_world. by rewrite (capture_fs _ _ _ _ _ Hcap).
Qed.

(** X8, on scenario B, where the in-memory pixel-diff rejects the sizes. *)
Lemma pixelmatch_exception_ends_main_witness :
  let s := Fixture.fine Fixture.red10x5 in
  let c := Fixture.collab s in
  let w0 := Fixture.start s Fixture.red10x10 in
  let w1 := Fixture.captured s Fixture.red10x10 in
  let cur := Fixture.image Fixture.red10x5 in
  let gold := Fixture.image Fixture.red10x10 in
  capture c Fixture.globals w0 = (Ret Fixture.red10x5, w1) /\
  fastpng_decode c Fixture.red10x5 = Ok cur /\
  fs w0 !! Fixture.goldenPath = Some Fixture.red10x10 /\
  fastpng_decode c Fixture.red10x10 = Ok gold /\
  pixelmatch c (png_data gold) (png_data cur) (blank cur) (png_width cur) (png_height cur)
    = Throws "Error: Image sizes do not match." /\
  (main c Fixture.globals Fixture.environ Fixture.goldenPath false w0).1
  = Raise "Error: Image sizes do not match.".
Proof.
  intros s c w0 w1 cur gold.
  assert (capture c Fixture.globals w0 = (Ret Fixture.red10x5, w1)) as H1
    by (vm_compute; reflexivity).
  assert (fastpng_decode c Fixture.red10x5 = Ok cur) as H2 by (vm_compute; reflexivity).
  assert (fs w0 !! Fixture.goldenPath = Some Fixture.red10x10) as H3
    by (vm_compute; reflexivity).
  assert (fastpng_decode c Fixture.red10x10 = Ok gold) as H4 by (vm_compute; reflexivity).
  assert (pixelmatch c (png_data gold) (png_data cur) (blank cur)
            (png_width cur) (png_height cur)
          = Throws "Error: Image sizes do not match.") as H5 by (vm_compute; reflexivity).
  split_and!; [exact H1 | exact H2 | exact H3 | exact H4 | exact H5 |].
  rewrite (pixelmatch_exception_ends_main c Fixture.globals Fixture.environ
             Fixture.goldenPath w0 w1 _ _ _ _ _ H1 H2 H3 H4 H5).
  reflexivity.
Defined.

(** X9: the diff file is written before the mismatch is reported.  When
    the count is not 0 and the write of the diff file throws, [main] ends with
    that exception: none of the three messages (count, accept command,
    location of the diff) is printed, and the files are as they were. *)
Theorem unwritable_diff_hides_the_mismatch_messages
    c g environ goldenPath w0 w1 buf goldenBuffer cur gold numDiffPixels diffImageData
    encoded :
  capture c g w0 = (Ret buf, w1) ->
  fastpng_decode c buf = Ok cur ->
  fs w0 !! goldenPath = Some goldenBuffer ->
  fastpng_decode c goldenBuffer = Ok gold ->
  pixelmatch c (png_data gold) (png_data cur) (blank cur) (png_width cur) (png_height cur)
    = Ok (numDiffPixels, diffImageData) ->
  numDiffPixels ≠ 0%Z ->
  fastpng_encode c (diff_image cur diffImageData) = Ok encoded ->
  fs_writable c (screenshotDiffPath g) = false ->
  main c g environ goldenPath false w0
  = (Raise ("EACCES: permission denied, open " +:+ screenshotDiffPath g),
     MkWorld (fs w0) (page_viewport w1)
       (trace w1 ++ comparison_events goldenPath buf goldenBuffer cur gold
          ++ [diff_perc_event cur numDiffPixels; EvEncode (diff_image cur diffImageData);
              EvWriteFile (screenshotDiffPath g) encoded])).
Proof.
  intros Hcap Hcur Hfile Hgold Hdiff Hn Henc Hw.
  rewrite (main_reported c g environ goldenPath w0 w1 buf goldenBuffer cur gold
             Hcap Hcur Hfile Hgold _ _ Hdiff).
  unfold compared_world, diff_image, diff_perc_event in *. unfold_ops. simpl.
  rewrite (bool_decide_eq_true_2 _ Hn), Henc. simpl. rewrite Hw. simpl.
  by rewrite (capture_fs _ _ _ _ _ Hcap), <- !app_assoc.
Qed.

(** X9, on scenario C with a read-only disk. *)
Lemma unwritable_diff_hides_the_mismatch_messages_witness :
  let s := Fixture.MkScenario Fixture.red10x10_one_blue true true false in
  let c := Fixture.collab s in
  let w0 := Fixture.start s Fixture.red10x10 in
  let w1 := Fixture.captured s Fixture.red10x10 in
  let cur := Fixture.image Fixture.red10x10_one_blue in
  let gold := Fixture.image Fixture.red10x10 in
  let diff := (Fixture.diff_pixels (png_data gold) (png_data cur)).2 in
  let encoded := Byte.x0a :: Byte.x0a :: diff in
  capture c Fixture.globals w0 = (Ret Fixture.red10x10_one_blue, w1) /\
  fastpng_decode c Fixture.red10x10_one_blue = Ok cur /\
  fs w0 !! Fixture.goldenPath = Some Fixture.red10x10 /\
  fastpng_decode c Fixture.red10x10 = Ok gold /\
  pixelmatch c (png_data gold) (png_data cur) (blank cur) (png_width cur) (png_height cur)
    = Ok (1%Z, diff) /\
  1%Z ≠ 0%Z /\
  fastpng_encode c (diff_image cur diff) = Ok encoded /\
  fs_writable c (screenshotDiffPath Fixture.globals) = false /\
  (main c Fixture.globals Fixture.environ Fixture.goldenPath false w0).1
  = Raise "EACCES: permission denied, open /outputs/image-diff.png".
Proof.
  intros s c w0 w1 cur gold diff encoded.
  assert (capture c Fixture.globals w0 = (Ret Fixture.red10x10_one_blue, w1)) as H1
    by (vm_compute; reflexivity).
  assert (fastpng_decode c Fixture.red10x10_one_blue = Ok cur) as H2
    by (vm_compute; reflexivity).
  assert (fs w0 !! Fixture.goldenPath = Some Fixture.red10x10) as H3
    by (vm_compute; reflexivity).
  assert (fastpng_decode c Fixture.red10x10 = Ok gold) as H4 by (vm_compute; reflexivity).
  assert (pixelmatch c (png_data gold) (png_data cur) (blank cur)
            (png_width cur) (png_height cur) = Ok (1%Z, diff)) as H5
    by (vm_compute; reflexivity).
  assert (1%Z ≠ 0%Z) as H6 by lia.
  assert (fastpng_encode c (diff_image cur diff) = Ok encoded) as H7
    by (vm_compute; reflexivity).
  assert (fs_writable c (screenshotDiffPath Fixture.globals) = false) as H8 by reflexivity.
  split_and!; [exact H1 | exact H2 | exact H3 | exact H4 | exact H5 | exact H6
              | exact H7 | exact H8 |].
  rewrite (unwritable_diff_hides_the_mismatch_messages c Fixture.globals Fixture.environ
             Fixture.goldenPath w0 w1 _ _ _ _ _ _ _ H1 H2 H3 H4 H5 H6 H7 H8).
  reflexivity.
Defined.

(** X10: in approve mode, when the write of the golden throws, [main] ends
    with that exception: the golden keeps its old content and the message
    that it was updated is not printed. *)
Theorem unwritable_golden_is_not_reported_updated c g environ goldenPath w0 w1 buf :
  capture c g w0 = (Ret buf, w1) ->
  fs_writable c goldenPath = false ->
  main c g environ goldenPath true w0
  = (Raise ("EACCES: permission denied, open " +:+ goldenPath),
     MkWorld (fs w0) (page_viewport w1) (trace w1 ++ [EvWriteFile goldenPath buf])).
Proof.
  intros Hcap Hw. rewrite main_capture_judge. unfold mbind at 1, M_bind at 1.
  rewrite Hcap. unfold_ops. simpl. rewrite Hw. simpl.
  by rewrite (capture_fs _ _ _ _ _ Hcap).
Qed.

(** X10, on an approval with a read-only disk. *)
Lemma unwritable_golden_is_not_reported_updated_witness :
  let s := Fixture.MkScenario Fixture.red10x10_one_blue true true false in
  let c := Fixture.collab s in
  let w0 := Fixture.start s Fixture.red10x10 in
  let r := main c Fixture.globals Fixture.environ Fixture.goldenPath true w0 in
  capture c Fixture.globals w0
    = (Ret Fixture.red10x10_one_blue, Fixture.captured s Fixture.red10x10) /\
  fs_writable c Fixture.goldenPath = false /\
  fs r.2 !! Fixture.goldenPath = Some Fixture.red10x10 /\
  exit_code r = 1%Z.
Proof.
  intros s c w0 r.
  assert (capture c Fixture.globals w0
          = (Ret Fixture.red10x10_one_blue, Fixture.captured s Fixture.red10x10)) as H1
    by (vm_compute; reflexivity).
  assert (fs_writable c Fixture.goldenPath = false) as H2 by reflexivity.
  split_and!; [exact H1 | exact H2 | |];
    unfold r;
    rewrite (unwritable_golden_is_not_reported_updated c Fixture.globals Fixture.environ
               Fixture.goldenPath w0 _ _ H1 H2);
    vm_compute; reflexivity.
Defined.

(** ** How a failing run ends *)

(** When [main] itself stops the process, an error message comes right
    before. *)
Lemma main_exit_follows_an_error c g environ goldenPath approveGolden w0 code w' :
  main c g environ goldenPath approveGolden w0 = (Exited code, w') ->
  exists before args, trace w' = before ++ [EvConsoleError args; EvExit 1%Z].
Proof.
  destruct approveGolden; unfold_ops; simpl; all_answers; try discriminate.
  all: intros [= <- <-]; simpl.
  all: rewrite <- (app_assoc _ [_] [EvExit 1%Z]); simpl.
  all: by eexists _, _.
Qed.

(** [main] leaves no trace of an uncaught exception: that event belongs to
    the module-level code. *)
Lemma main_never_logs_uncaught c g environ goldenPath approveGolden w0 :
  exists added,
    trace (main c g environ goldenPath approveGolden w0).2 = trace w0 ++ added /\
    count is_uncaught added = 0%nat.
Proof.
  destruct approveGolden; unfold_ops; simpl; all_answers.
  all: eexists; split; [rewrite <- ?app_assoc; simpl; reflexivity | reflexivity].
Qed.

(** X11: once [main] has started, no exception escapes the run: [main]'s
    rejection goes to the handler of line 60.  A run that reached the
    renderer and fails ends by printing an error and calling
    [process.exit(1)], in that order; a run that reached the renderer and does
    not fail never calls [process.exit]. *)
Theorem no_exception_escapes_main c environ argv files :
  let r := run c environ argv files in
  EvRender ∈ trace r.2 ->
  count is_uncaught (trace r.2) = 0%nat /\
  (r.1 = 1%Z ->
     exists before args, trace r.2 = before ++ [EvConsoleError args; EvExit 1%Z]) /\
  (r.1 = 0%Z -> count is_exit (trace r.2) = 0%nat).
Proof.
  intros r. subst r. unfold run.
  destruct (script_cases c environ argv (initial_world c files))
    as [(chromium & dir & gp & _ & ->)|[(e & ->)|(_ & msg & ->)]].
  - rewrite catch_report_rejection.
    destruct (main_never_logs_uncaught c
                (MkGlobals chromium (Some dir) (path_join c dir "image-diff.png"))
                environ gp (approveGolden argv) (initial_world c files))
      as (added & Hadded & Hun).
    destruct (main _ _ _ _ _ _) as [[[]|e|code] w'] eqn:Hmain; simpl in *; intros _.
    + apply main_returns in Hmain as (added' & Ht & _ & Hexit & _).
      simpl in Ht. rewrite Hadded. split_and!; [done | discriminate |].
      intros _. rewrite <- Hadded, Ht. done.
    + split_and!; [|by eexists _, _|discriminate].
      rewrite Hadded, count_app, Hun. reflexivity.
    + pose proof (main_exits_with_1 _ _ _ _ _ _ _ _ Hmain) as ->.
      split_and!; [by rewrite Hadded | intros _; by eapply main_exit_follows_an_error
                  | discriminate].
  - simpl. intros Hin. by apply elem_of_cons in Hin as [?|?%elem_of_nil].
  - simpl. intros Hin. in_list Hin.
Qed.

(** X11, on scenario B. *)
Lemma no_exception_escapes_main_witness :
  let c := Fixture.collab (Fixture.fine Fixture.red10x5) in
  let r := run c Fixture.environ Fixture.argv_verify (Fixture.files Fixture.red10x10) in
  EvRender ∈ trace r.2 /\ count is_uncaught (trace r.2) = 0%nat.
Proof.
  intros c r.
  assert (EvRender ∈ trace r.2) as H1 by (vm_compute; apply list_elem_of_here).
  split; [exact H1|].
  exact (proj1 (no_exception_escapes_main c Fixture.environ Fixture.argv_verify
                  (Fixture.files Fixture.red10x10) H1)).
Defined.

(** ** The location printed for the diff file *)

(** What [replace(/\\/g, '/')] does to one character. *)
Lemma replace_backslashes_get (s : string) (i : nat) :
  String.get i (replace_backslashes s)
  = (fun a => if Ascii.eqb a "092"%char then "/"%char else a) <$> String.get i s.
Proof.
  revert i. induction s as [|a s IH]; intros [|i]; simpl; try reflexivity. apply IH.
Qed.

(** X12: the location printed for the diff file holds no backslash, is as
    long as the path, and differs from it only where the path has a
    backslash, which has become a slash. *)
Theorem replace_backslashes_leaves_no_backslash (s : string) :
  has_backslash (replace_backslashes s) = false /\
  String.length (replace_backslashes s) = String.length s /\
  (forall i a, String.get i s = Some a -> a ≠ "092"%char ->
     String.get i (replace_backslashes s) = Some a) /\
  (forall i, String.get i s = Some "092"%char ->
     String.get i (replace_backslashes s) = Some "/"%char).
Proof.
  split_and!.
  - induction s as [|a s IH]; simpl; [reflexivity|]. rewrite IH.
    destruct (Ascii.eqb a "092"%char) eqn:E; [reflexivity|]. by rewrite E.
  - induction s as [|a s IH]; simpl; [reflexivity|]. by rewrite IH.
  - intros i a Hget Hne. rewrite replace_backslashes_get, Hget. simpl.
    by rewrite (proj2 (Ascii.eqb_neq _ _) Hne).
  - intros i Hget. by rewrite replace_backslashes_get, Hget.
Qed.

(** X12, on a Windows path. *)
Lemma replace_backslashes_leaves_no_backslash_witness :
  String.get 2 "C:\out\image-diff.png" = Some "092"%char /\
  String.get 2 (replace_backslashes "C:\out\image-diff.png") = Some "/"%char.
Proof.
  assert (String.get 2 "C:\out\image-diff.png" = Some "092"%char) as H1 by reflexivity.
  split; [exact H1|].
  destruct (replace_backslashes_leaves_no_backslash "C:\out\image-diff.png")
    as (_ & _ & _ & Hslash).
  exact (Hslash 2%nat H1).
Defined.

(** X13: a path is printed as it is exactly when it holds no backslash (the
    paths of a POSIX system), and replacing twice is replacing once. *)
Theorem replace_backslashes_fixes_clean_paths (s : string) :
  (replace_backslashes s = s <-> has_backslash s = false) /\
  replace_backslashes (replace_backslashes s) = replace_backslashes s.
Proof.
  assert (forall t, has_backslash t = false -> replace_backslashes t = t) as Hclean.
  { induction t as [|a t IH]; simpl; [reflexivity|].
    intros [Ha Ht]%orb_false_elim. by rewrite Ha, IH. }
  split; [split; [|apply Hclean]|].
  - induction s as [|a s IH]; simpl; [reflexivity|].
    intros [= Ha Hs]. rewrite (IH Hs).
    destruct (Ascii.eqb a "092"%char) eqn:E; [|reflexivity].
    apply Ascii.eqb_eq in E. subst a. discriminate Ha.
  - apply Hclean. induction s as [|a s IH]; simpl; [reflexivity|]. rewrite IH.
    destruct (Ascii.eqb a "092"%char) eqn:E; [reflexivity|]. by rewrite E.
Qed.

(** X13, on the diff path of the fixture. *)
Lemma replace_backslashes_fixes_clean_paths_witness :
  has_backslash "/outputs/image-diff.png" = false /\
  replace_backslashes "/outputs/image-diff.png" = "/outputs/image-diff.png".
Proof.
  assert (has_backslash "/outputs/image-diff.png" = false) as H1 by reflexivity.
  split; [exact H1|].
  exact (proj2 (proj1 (replace_backslashes_fixes_clean_paths "/outputs/image-diff.png")) H1).
Defined.

(** ** Approve, then verify *)

(** A capture does not look at the files: when every call of it answers, it
    returns the screenshot, from any world. *)
Lemma capture_runs c g w outputPath executablePath height buf :
  prerender_outputPath c = Ok outputPath ->
  runfiles_resolve c (chromiumExecutableRootPath g) = Ok executablePath ->
  puppeteer_launch c executablePath true = Ok tt ->
  browser_newPage c = Ok tt ->
  page_goto c ("file://" +:+ outputPath) = Ok tt ->
  body_scrollHeight c (page_viewport w) = Ok height ->
  page_setViewport c (MkViewport screenshotBrowserWidth height) = Ok tt ->
  page_screenshot c (MkViewport screenshotBrowserWidth height) = Ok buf ->
  browser_close c = Ok tt ->
  capture c g w
  = (Ret buf,
     MkWorld (fs w) (MkViewport screenshotBrowserWidth height)
       (trace w ++ capture_events outputPath executablePath (page_viewport w) height)).
Proof.
  intros H1 H2 H3 H4 H5 H6 H7 H8 H9. unfold_ops. simpl.
  rewrite H1. simpl. rewrite H2. simpl. rewrite H3. simpl. rewrite H4. simpl.
  rewrite H5. simpl. rewrite H6. simpl. rewrite H7. simpl. rewrite H8. simpl.
  rewrite H9. simpl. unfold capture_events. by rewrite <- !app_assoc.
Qed.

(** X14: approve, then verify.  When an approve-mode run has written the
    golden, a verify-mode run that starts from the files it left, with the
    same collaborators, passes: the golden it reads is the buffer it
    captures, so the pixel-diff (which reports 0 for a valid buffer compared
    with itself) is called on one image, the run returns with exit code 0 and
    the files stay as the approval left them. *)
Theorem approve_then_verify_passes c g environ goldenPath files buf w1 cur channels :
  capture c g (initial_world c files) = (Ret buf, w1) ->
  fs_writable c goldenPath = true ->
  fastpng_decode c buf = Ok cur ->
  valid_buffer channels cur ->
  diff_reflexive channels c ->
  let approved := main c g environ goldenPath true (initial_world c files) in
  let verified := main c g environ goldenPath false (initial_world c (fs approved.2)) in
  exit_code approved = 0%Z /\
  fs approved.2 !! goldenPath = Some buf /\
  verified.1 = Ret tt /\
  exit_code verified = 0%Z /\
  fs verified.2 = fs approved.2 /\
  last (trace verified.2) = Some golden_matches.
Proof.
  intros Hcap Hw Hcur Hvalid Hcontract approved verified.
  assert (approved
          = (Ret tt,
             MkWorld (<[goldenPath := buf]> files) (page_viewport w1)
               (trace w1 ++ [EvWriteFile goldenPath buf; golden_updated]))) as Happ.
  { unfold approved. rewrite main_capture_judge. unfold mbind at 1, M_bind at 1.
    rewrite Hcap. unfold_ops. simpl. rewrite Hw. simpl.
    rewrite (capture_fs _ _ _ _ _ Hcap), <- !app_assoc. reflexivity. }
  assert (fs approved.2 = <[goldenPath := buf]> files) as Hfs by by rewrite Happ.
  apply capture_returns in Hcap
    as (out & exe & h & H1 & H2 & H3 & H4 & H5 & H6 & H7 & H8 & H9 & _).
  pose proof (capture_runs c g (initial_world c (fs approved.2)) out exe h buf
                H1 H2 H3 H4 H5 H6 H7 H8 H9) as Hcap2.
  assert (fs (initial_world c (fs approved.2)) !! goldenPath = Some buf) as Hfile.
  { simpl. rewrite Hfs. apply lookup_insert_eq. }
  pose proof (main_compared c g environ goldenPath _ _ buf buf cur cur
                Hcap2 Hcur Hfile Hcur) as Hver.
  destruct (Hcontract (png_data cur) (blank cur) (png_width cur) (png_height cur))
    as [d Hd]; [exact Hvalid | apply length_replicate |].
  rewrite Hd in Hver. fold verified in Hver.
  unfold report, compared_world in Hver. unfold_ops. revert Hver. unfold_ops. simpl.
  intros Hver. rewrite Hver, Happ. simpl.
  split_and!; try done. apply lookup_insert_eq.
Qed.

(** X14, on scenario D followed by a verification. *)
Lemma approve_then_verify_passes_witness :
  let s := Fixture.fine Fixture.red10x10_one_blue in
  let c := Fixture.collab s in
  let files := Fixture.files Fixture.red10x10 in
  let cur := Fixture.image Fixture.red10x10_one_blue in
  let approved := main c Fixture.globals Fixture.environ Fixture.goldenPath true
                    (initial_world c files) in
  let verified := main c Fixture.globals Fixture.environ Fixture.goldenPath false
                    (initial_world c (fs approved.2)) in
  capture c Fixture.globals (initial_world c files)
    = (Ret Fixture.red10x10_one_blue, Fixture.captured s Fixture.red10x10) /\
  fs_writable c Fixture.goldenPath = true /\
  fastpng_decode c Fixture.red10x10_one_blue = Ok cur /\
  valid_buffer 4 cur /\
  diff_reflexive 4 c /\
  exit_code approved = 0%Z /\ exit_code verified = 0%Z.
Proof.
  intros s c files cur approved verified.
  assert (capture c Fixture.globals (initial_world c files)
          = (Ret Fixture.red10x10_one_blue, Fixture.captured s Fixture.red10x10)) as H1
    by (vm_compute; reflexivity).
  assert (fs_writable c Fixture.goldenPath = true) as H2 by reflexivity.
  assert (fastpng_decode c Fixture.red10x10_one_blue = Ok cur) as H3
    by (vm_compute; reflexivity).
  assert (valid_buffer 4 cur) as H4 by (vm_compute; reflexivity).
  pose proof (reference_diff_reflexive s) as H5.
  destruct (approve_then_verify_passes c Fixture.globals Fixture.environ
              Fixture.goldenPath files _ _ cur 4%Z H1 H2 H3 H4 H5)
    as (Ha & _ & _ & Hv & _).
  split_and!; [exact H1 | exact H2 | exact H3 | exact H4 | exact H5 | exact Ha | exact Hv].
Defined.

(** ** The viewport *)

(** X15: [updateBrowserViewportToMatchContent] touches no file.  When it
    returns, the page is as wide as the fixed width and as high as the body
    was measured in the viewport it had before; when the measurement or the
    resize throws, the viewport is the one it had before.  Called a second
    time after it returned, it measures the body at the fixed width. *)
Theorem updateBrowserViewportToMatchContent_viewport c w :
  let r := updateBrowserViewportToMatchContent c w in
  fs r.2 = fs w /\
  (forall u, r.1 = Ret u ->
     exists height,
       body_scrollHeight c (page_viewport w) = Ok height /\
       page_viewport r.2 = MkViewport screenshotBrowserWidth height /\
       trace r.2 = trace w ++ [EvEvaluate (page_viewport w);
                               EvSetViewport (MkViewport screenshotBrowserWidth height)] /\
       exists rest,
         trace (updateBrowserViewportToMatchContent c r.2).2
         = trace r.2 ++ EvEvaluate (MkViewport screenshotBrowserWidth height) :: rest) /\
  (forall e, r.1 = Raise e -> page_viewport r.2 = page_viewport w) /\
  (forall code, r.1 ≠ Exited code).
Proof.
  intros r. subst r. unfold_ops. simpl.
  destruct (body_scrollHeight c (page_viewport w)) as [h|e] eqn:Hh; simpl.
  2: { split_and!; try done. }
  destruct (page_setViewport c (MkViewport screenshotBrowserWidth h)) as [[]|e] eqn:Hset;
    simpl.
  2: { split_and!; try done. }
  split_and!; try done.
  intros _ _. exists h. split_and!; [done | done | by rewrite <- app_assoc |].
  destruct (body_scrollHeight c (MkViewport screenshotBrowserWidth h)) as [h2|e2]; simpl.
  - destruct (page_setViewport c (MkViewport screenshotBrowserWidth h2)) as [[]|e2]; simpl;
      eexists; rewrite <- ?app_assoc; simpl; reflexivity.
  - eexists. reflexivity.
Qed.

(** X15, on the page of the fixture: measured 1920 high at 800 wide, then
    measured again at 1920 wide. *)
Lemma updateBrowserViewportToMatchContent_viewport_witness :
  let c := Fixture.collab (Fixture.fine Fixture.red10x10) in
  let w := initial_world c ∅ in
  let r := updateBrowserViewportToMatchContent c w in
  r.1 = Ret tt /\
  page_viewport r.2 = MkViewport screenshotBrowserWidth 1920 /\
  EvEvaluate (MkViewport screenshotBrowserWidth 1920)
    ∈ trace (updateBrowserViewportToMatchContent c r.2).2.
Proof.
  intros c w r.
  assert (r.1 = Ret tt) as H1 by (vm_compute; reflexivity).
  destruct (updateBrowserViewportToMatchContent_viewport c w) as (_ & Hret & _).
  destruct (Hret tt H1) as (h & Hh & Hvp & _ & rest & Hrest).
  assert (h = 1920%Z) as -> by (vm_compute in Hh; congruence).
  split_and!; [exact H1 | exact Hvp |].
  fold r in Hrest. rewrite Hrest. apply elem_of_app. right. apply list_elem_of_here.
Defined.

(** ** The metadata file *)

(** X16: a metadata file whose [webTestFiles] is an empty array stops the
    process while the module is loaded: reading [namedFiles] of its missing
    first entry throws, nothing catches it, and the run ends with exit code 1
    before anything is rendered, whatever the command line. *)
Theorem empty_webTestFiles_stops_the_load c environ argv files metadataPath resolved md :
  environ !! "WEB_TEST_METADATA" = Some metadataPath ->
  runfiles_resolve c (Some metadataPath) = Ok resolved ->
  require_metadata c resolved = Ok md ->
  webTestFiles md = Some [] ->
  run c environ argv files
  = (1%Z,
     MkWorld files (default_viewport c)
       [EvUncaught "TypeError: Cannot read properties of undefined (reading 'namedFiles')"]).
Proof.
  intros Hmd Hres Hreq Hempty. unfold run, script. rewrite Hmd.
  unfold mbind, M_bind, lift. rewrite Hres, Hreq. unfold chromium_of. rewrite Hempty.
  reflexivity.
Qed.

(** X16, on the fixture with an empty list of web test files. *)
Lemma empty_webTestFiles_stops_the_load_witness :
  let md := MkWebTestMetadata (Some []) in
  let c := with_metadata md (Fixture.collab (Fixture.fine Fixture.red10x10)) in
  Fixture.environ !! "WEB_TEST_METADATA" = Some "/meta.json" /\
  runfiles_resolve c (Some "/meta.json") = Ok "/meta.json" /\
  require_metadata c "/meta.json" = Ok md /\
  webTestFiles md = Some [] /\
  (run c Fixture.environ Fixture.argv_approve (Fixture.files Fixture.red10x10)).1 = 1%Z.
Proof.
  intros md c.
  assert (Fixture.environ !! "WEB_TEST_METADATA" = Some "/meta.json") as H1
    by (vm_compute; reflexivity).
  assert (runfiles_resolve c (Some "/meta.json") = Ok "/meta.json") as H2 by reflexivity.
  assert (require_metadata c "/meta.json" = Ok md) as H3 by reflexivity.
  assert (webTestFiles md = Some []) as H4 by reflexivity.
  split_and!; [exact H1 | exact H2 | exact H3 | exact H4 |].
  rewrite (empty_webTestFiles_stops_the_load c Fixture.environ Fixture.argv_approve
             (Fixture.files Fixture.red10x10) _ _ _ H1 H2 H3 H4).
  reflexivity.
Defined.

(** X17: a metadata file without [webTestFiles] does not stop the load:
    the optional chaining leaves the Chromium path undefined and the run goes
    on to [main].  The path is resolved only after the rendering; when
    resolving the undefined path throws, the run has rendered, has not
    launched a browser, prints the exception and exits with code 1. *)
Theorem missing_webTestFiles_fails_after_rendering
    c environ argv files metadataPath resolved md dir goldenPath outputPath e :
  environ !! "WEB_TEST_METADATA" = Some metadataPath ->
  runfiles_resolve c (Some metadataPath) = Ok resolved ->
  require_metadata c resolved = Ok md ->
  webTestFiles md = None ->
  environ !! "TEST_UNDECLARED_OUTPUTS_DIR" = Some dir ->
  runfiles_resolveWorkspaceRelative c (drop 2 argv !! 0%nat) = Ok goldenPath ->
  prerender_outputPath c = Ok outputPath ->
  runfiles_resolve c None = Throws e ->
  run c environ argv files
  = (1%Z,
     MkWorld files (default_viewport c)
       [EvRender; EvConsoleError [LError e]; EvExit 1%Z]).
Proof.
  intros Hmd Hres Hreq Hnone Hdir Hgold Hrender Hchromium.
  assert (chromium_of md = Ok None) as Hchr by (unfold chromium_of; by rewrite Hnone).
  unfold run.
  rewrite (script_runs_main _ _ _ _ _ _ _ _ _ _ Hmd Hres Hreq Hchr Hdir Hgold).
  rewrite catch_report_rejection. unfold_ops. simpl.
  rewrite Hrender. simpl. rewrite Hchromium. reflexivity.
Qed.

(** X17, on the fixture with a metadata file that names no web test file. *)
Lemma missing_webTestFiles_fails_after_rendering_witness :
  let md := MkWebTestMetadata None in
  let c := with_metadata md (Fixture.collab (Fixture.fine Fixture.red10x10)) in
  let r := run c Fixture.environ Fixture.argv_verify (Fixture.files Fixture.red10x10) in
  Fixture.environ !! "WEB_TEST_METADATA" = Some "/meta.json" /\
  runfiles_resolve c (Some "/meta.json") = Ok "/meta.json" /\
  require_metadata c "/meta.json" = Ok md /\
  webTestFiles md = None /\
  Fixture.environ !! "TEST_UNDECLARED_OUTPUTS_DIR" = Some "/outputs" /\
  runfiles_resolveWorkspaceRelative c (drop 2 Fixture.argv_verify !! 0%nat)
    = Ok Fixture.goldenPath /\
  prerender_outputPath c = Ok "/out/index.html" /\
  runfiles_resolve c None = Throws "Error: could not resolve undefined" /\
  r.1 = 1%Z /\ count is_browser (trace r.2) = 1%nat.
Proof.
  intros md c r.
  assert (Fixture.environ !! "WEB_TEST_METADATA" = Some "/meta.json") as H1
    by (vm_compute; reflexivity).
  assert (runfiles_resolve c (Some "/meta.json") = Ok "/meta.json") as H2 by reflexivity.
  assert (require_metadata c "/meta.json" = Ok md) as H3 by reflexivity.
  assert (webTestFiles md = None) as H4 by reflexivity.
  assert (Fixture.environ !! "TEST_UNDECLARED_OUTPUTS_DIR" = Some "/outputs") as H5
    by (vm_compute; reflexivity).
  assert (runfiles_resolveWorkspaceRelative c (drop 2 Fixture.argv_verify !! 0%nat)
          = Ok Fixture.goldenPath) as H6 by reflexivity.
  assert (prerender_outputPath c = Ok "/out/index.html") as H7 by reflexivity.
  assert (runfiles_resolve c None = Throws "Error: could not resolve undefined") as H8
    by reflexivity.
  split_and!; [exact H1 | exact H2 | exact H3 | exact H4 | exact H5 | exact H6
              | exact H7 | exact H8 | |];
    unfold r;
    rewrite (missing_webTestFiles_fails_after_rendering c Fixture.environ
               Fixture.argv_verify (Fixture.files Fixture.red10x10)
               _ _ _ _ _ _ _ H1 H2 H3 H4 H5 H6 H7 H8);
    reflexivity.
Defined.

(** ** No retries *)

(** X18: [main] tries nothing twice.  In a run of it the renderer, every
    operation of the browser, the file read, the file write, the encoder and
    the pixel-diff are each called at most once, and the decoder at most
    twice (the candidate, then the golden), whichever calls throw. *)
Theorem main_retries_nothing c g environ goldenPath approveGolden w0 :
  let r := main c g environ goldenPath approveGolden w0 in
  exists added,
    trace r.2 = trace w0 ++ added /\
    forall e, is_browser e || is_io e = true ->
      (count (same_kind e) added <= (if is_decode e then 2 else 1))%nat.
Proof.
  intros r. subst r. destruct approveGolden; unfold_ops; simpl; all_answers.
  all: eexists; split; [rewrite <- ?app_assoc; simpl; reflexivity|].
  all: intros [] He; try discriminate He; vm_compute; lia.
Qed.

(** X18, on scenario C. *)
Lemma main_retries_nothing_witness :
  let s := Fixture.fine Fixture.red10x10_one_blue in
  let r := main (Fixture.collab s) Fixture.globals Fixture.environ Fixture.goldenPath
             false (Fixture.start s Fixture.red10x10) in
  is_browser (EvScreenshot (MkViewport 0 0)) || is_io (EvScreenshot (MkViewport 0 0)) = true /\
  (count (same_kind (EvScreenshot (MkViewport 0 0))) (trace r.2) <= 1)%nat.
Proof.
  intros s r.
  assert (is_browser (EvScreenshot (MkViewport 0 0))
          || is_io (EvScreenshot (MkViewport 0 0)) = true) as H1 by reflexivity.
  split; [exact H1|].
  destruct (main_retries_nothing (Fixture.collab s) Fixture.globals Fixture.environ
              Fixture.goldenPath false (Fixture.start s Fixture.red10x10))
    as (added & Ht & Hcount).
  fold r in Ht. rewrite Ht. exact (Hcount _ H1).
Defined.
